(** * Inheritance Visualizer: statutory shares, estate tax and the asset ledger

    A shallow embedding of the engine of [src/App.tsx] (the component
    [InheritanceVisualizer] and its helpers) and the proofs of its
    specification.

    Modelling conventions.
    - A JavaScript [number] is an exact rational ([Q]); sums, products and
      quotients are those of [Q], compared with [Qeq], [Qle] and [Qlt].
      Rounding of IEEE doubles is therefore outside the model; the section
      "binary64 cross-checks" re-evaluates the tax formula on primitive floats
      at the concrete amounts the specification names.
    - A JavaScript string is a [string]; [===] on strings is [String.eqb].
    - React state is an explicit record [AppState]; every event handler is a
      function from state to state.  [confirm(..)] is a boolean input.
    - Optional fields ([name?], [relation?], ...) are [option]s. *)

From Stdlib Require Import List String Ascii Bool Arith ZArith QArith.
From Stdlib Require Import Qminmax Qabs Lia Lqa DecimalString.
From Stdlib Require Import PrimFloat.
From Stdlib Require Import Sorted Permutation Qround.
Import ListNotations.

Set Warnings "-inexact-float".

Open Scope string_scope.
Open Scope list_scope.
Open Scope Q_scope.

(** ** Numbers and strings *)

Definition number := Q.

Definition Q_of_nat (n : nat) : Q := inject_Z (Z.of_nat n).

(** [a < b] on numbers, as a boolean. *)
Definition Qlt_bool (a b : Q) : bool := negb (Qle_bool b a).

(** Template literal interpolation of a non-negative integer. *)
Definition string_of_nat (n : nat) : string :=
  NilZero.string_of_uint (Nat.to_uint n).

(** [s.endsWith(suffix)]: some tail of [s] is [suffix]. *)
Fixpoint endsWith (s suffix : string) : bool :=
  if String.eqb s suffix then true
  else match s with
       | EmptyString => false
       | String _ s' => endsWith s' suffix
       end.

(** [s.includes(sub)]: [sub] is a prefix of some tail of [s]. *)
Fixpoint includes (s sub : string) : bool :=
  if String.prefix sub s then true
  else match s with
       | EmptyString => false
       | String _ s' => includes s' sub
       end.

(** ** Types ("類型定義") *)

Inductive AssetType := cash | stock | property.

Module Asset.
Record t := mk {
  id : string;
  type : AssetType;
  amount : number;
  location : string;
  name : option string
}.

(** [{ ...a, location: l }] *)
Definition withLocation (a : t) (l : string) : t :=
  mk (id a) (type a) (amount a) l (name a).
End Asset.

Inductive PersonStatusType := NONE | ALIVE | DECEASED.

Definition status_eqb (a b : PersonStatusType) : bool :=
  match a, b with
  | NONE, NONE | ALIVE, ALIVE | DECEASED, DECEASED => true
  | _, _ => false
  end.

Inductive Gender := male | female.

Module FamilyMember.
Record t := mk {
  id : string;
  name : string;
  gender : Gender;
  status : PersonStatusType;
  relation : option string;
  relationLabel : option string;
  hasSpouse : option bool;
  hasChildren : option bool;
  childCount : option number
}.

(** [{ ...m, relation: r, relationLabel: l }] *)
Definition withRelation (m : t) (r l : string) : t :=
  mk (id m) (name m) (gender m) (status m) (Some r) (Some l)
     (hasSpouse m) (hasChildren m) (childCount m).

(** [m.relation === r] *)
Definition relationIs (m : t) (r : string) : bool :=
  match relation m with
  | Some r' => String.eqb r' r
  | None => false
  end.
End FamilyMember.

(** [interface Heir extends FamilyMember]: the member's fields and three more. *)
Module Heir.
Record t := mk {
  member : FamilyMember.t;
  isHeir : bool;
  share : string;
  legalShare : number
}.

Definition id (h : t) : string := FamilyMember.id (member h).
Definition relation (h : t) : option string := FamilyMember.relation (member h).
Definition status (h : t) : PersonStatusType := FamilyMember.status (member h).
Definition relationIs (h : t) (r : string) : bool :=
  FamilyMember.relationIs (member h) r.
End Heir.

Module Family.
Record t := mk {
  self_name : string;
  self_gender : Gender;
  spouse : FamilyMember.t;
  father : FamilyMember.t;
  mother : FamilyMember.t;
  children : list FamilyMember.t;
  siblings : list FamilyMember.t
}.

(** [{ ...prev, children: cs }] and [{ ...prev, siblings: ss }] *)
Definition withChildren (f : t) (cs : list FamilyMember.t) : t :=
  mk (self_name f) (self_gender f) (spouse f) (father f) (mother f) cs (siblings f).
Definition withSiblings (f : t) (ss : list FamilyMember.t) : t :=
  mk (self_name f) (self_gender f) (spouse f) (father f) (mother f) (children f) ss.
End Family.

(** ** Estate tax ("稅額常數") *)

Definition ESTATE_TAX_EXEMPTION : number := 13330000.
Definition DEDUCTION_SPOUSE : number := 5530000.
Definition DEDUCTION_PARENT : number := 1380000.
Definition DEDUCTION_CHILD : number := 560000.
Definition DEDUCTION_FUNERAL : number := 1380000.

(** A bracket; [limit = None] stands for [Infinity]. *)
Module Bracket.
Record t := mk { limit : option number; rate : number; deduction : number }.
End Bracket.

Definition ESTATE_TAX_BRACKETS : list Bracket.t :=
  [ Bracket.mk (Some 56210000) 0.10 0;
    Bracket.mk (Some 112420000) 0.15 2810500;
    Bracket.mk None 0.20 8431500 ].

(** [taxableAmount <= b.limit] *)
Definition withinLimit (taxableAmount : number) (b : Bracket.t) : bool :=
  match Bracket.limit b with
  | Some l => Qle_bool taxableAmount l
  | None => true
  end.

Module TaxResult.
Record t := mk { tax : number; rate : number }.
End TaxResult.

(** [calculateInheritanceTax].  The fallback after [||] is the last bracket;
    the table is a non-empty constant, so the default of [nth] is never read. *)
Definition calculateInheritanceTax (taxableAmount : number) : TaxResult.t :=
  if Qle_bool taxableAmount 0 then TaxResult.mk 0 0
  else
    let bracket :=
      match find (withinLimit taxableAmount) ESTATE_TAX_BRACKETS with
      | Some b => b
      | None => nth (List.length ESTATE_TAX_BRACKETS - 1)%nat ESTATE_TAX_BRACKETS
                    (Bracket.mk None 0 0)
      end in
    let tax := taxableAmount * Bracket.rate bracket - Bracket.deduction bracket in
    TaxResult.mk (Qmax 0 tax) (Bracket.rate bracket).

(** The formula of one bracket, before the clamp at zero. *)
Definition bracketFormula (b : Bracket.t) (taxableAmount : number) : number :=
  taxableAmount * Bracket.rate b - Bracket.deduction b.

(** ** The heir resolver ([heirs], "計算繼承人") *)

Definition isAlive (m : FamilyMember.t) : bool :=
  status_eqb (FamilyMember.status m) ALIVE.

(** Everybody who "exists" on the input page, heirs or not, in the order
    spouse, father, mother, children, siblings. *)
Definition allCandidates (family : Family.t) : list FamilyMember.t :=
  (if negb (status_eqb (FamilyMember.status (Family.spouse family)) NONE)
   then [FamilyMember.withRelation (Family.spouse family) "spouse" "配偶"] else [])
  ++ (if negb (status_eqb (FamilyMember.status (Family.father family)) NONE)
      then [FamilyMember.withRelation (Family.father family) "parent" "父親"] else [])
  ++ (if negb (status_eqb (FamilyMember.status (Family.mother family)) NONE)
      then [FamilyMember.withRelation (Family.mother family) "parent" "母親"] else [])
  ++ map (fun c => FamilyMember.withRelation c "child" "子女") (Family.children family)
  ++ map (fun s => FamilyMember.withRelation s "sibling" "兄弟姊妹") (Family.siblings family).

Definition livingChildren (family : Family.t) : list FamilyMember.t :=
  filter isAlive (Family.children family).
Definition hasSpouse (family : Family.t) : bool := isAlive (Family.spouse family).
Definition hasFather (family : Family.t) : bool := isAlive (Family.father family).
Definition hasMother (family : Family.t) : bool := isAlive (Family.mother family).
Definition livingSiblings (family : Family.t) : list FamilyMember.t :=
  filter isAlive (Family.siblings family).

Definition parentCount (family : Family.t) : nat :=
  (if hasFather family then 1 else 0) + (if hasMother family then 1 else 0).

(** The callback of [allCandidates.map]: the order-of-succession logic. *)
Definition resolveHeir (family : Family.t) (person : FamilyMember.t) : Heir.t :=
  let notHeir := Heir.mk person false "0" 0 in
  if (0 <? List.length (livingChildren family))%nat then
    if (FamilyMember.relationIs person "child" && isAlive person)
       || (FamilyMember.relationIs person "spouse" && hasSpouse family)
    then
      let totalHeirs :=
        (List.length (livingChildren family) + (if hasSpouse family then 1 else 0))%nat in
      Heir.mk person true ("1 / " ++ string_of_nat totalHeirs)%string (1 / Q_of_nat totalHeirs)
    else notHeir
  else if hasFather family || hasMother family then
    if (FamilyMember.relationIs person "parent" && isAlive person)
       || (FamilyMember.relationIs person "spouse" && hasSpouse family)
    then
      if FamilyMember.relationIs person "spouse" then Heir.mk person true "1/2" 0.5
      else
        Heir.mk person true
          (if hasSpouse family
           then (if (parentCount family =? 1)%nat then "1/2" else "1/4")
           else (if (parentCount family =? 1)%nat then "1/1" else "1/2"))
          (if hasSpouse family then 0.5 / Q_of_nat (parentCount family)
           else 1 / Q_of_nat (parentCount family))
    else notHeir
  else if (0 <? List.length (livingSiblings family))%nat then
    if (FamilyMember.relationIs person "sibling" && isAlive person)
       || (FamilyMember.relationIs person "spouse" && hasSpouse family)
    then
      let sibCount := List.length (livingSiblings family) in
      if FamilyMember.relationIs person "spouse" then Heir.mk person true "1/2" 0.5
      else
        Heir.mk person true
          (if hasSpouse family then "1/" ++ string_of_nat (sibCount * 2)
           else "1/" ++ string_of_nat sibCount)%string
          (if hasSpouse family then 0.5 / Q_of_nat sibCount else 1 / Q_of_nat sibCount)
    else notHeir
  else if hasSpouse family && FamilyMember.relationIs person "spouse" then
    Heir.mk person true "1/1" 1
  else notHeir.

Definition heirs (family : Family.t) : list Heir.t :=
  map (resolveHeir family) (allCandidates family).

(** ** The classes in closed form

    Which class is active, and the share of a living member of each relation;
    the resolver is compared with these below. *)

Definition childrenActive (f : Family.t) : bool :=
  (0 <? List.length (livingChildren f))%nat.
Definition parentsActive (f : Family.t) : bool :=
  negb (childrenActive f) && (hasFather f || hasMother f).
Definition siblingsActive (f : Family.t) : bool :=
  negb (childrenActive f) && negb (hasFather f || hasMother f)
  && (0 <? List.length (livingSiblings f))%nat.

Definition childShare (f : Family.t) : number :=
  1 / Q_of_nat (List.length (livingChildren f) + (if hasSpouse f then 1 else 0)).
Definition parentShare (f : Family.t) : number :=
  if hasSpouse f then 0.5 / Q_of_nat (parentCount f) else 1 / Q_of_nat (parentCount f).
Definition siblingShare (f : Family.t) : number :=
  if hasSpouse f then 0.5 / Q_of_nat (List.length (livingSiblings f))
  else 1 / Q_of_nat (List.length (livingSiblings f)).
Definition spouseShare (f : Family.t) : number :=
  if childrenActive f then childShare f
  else if hasFather f || hasMother f then 0.5
  else if (0 <? List.length (livingSiblings f))%nat then 0.5
  else 1.

(** ** The asset ledger ("資產處理") *)

(** The part of the component's state the engine reads and writes. *)
Record AppState := mkState {
  family : Family.t;
  assets : list Asset.t;
  draggedAsset : option Asset.t
}.

(** [list.reduce((sum, a) => sum + a.amount, 0)] *)
Definition sumAmounts (l : list Asset.t) : number :=
  fold_left (fun sum a => sum + Asset.amount a) l 0.

Definition totalEstate (st : AppState) : number := sumAmounts (assets st).

(** [autoDeductionAmount]: the deductions of the main screen. *)
Definition autoDeductionAmount (family : Family.t) : number :=
  let total := ESTATE_TAX_EXEMPTION + DEDUCTION_FUNERAL in
  let total := if isAlive (Family.spouse family) then total + DEDUCTION_SPOUSE else total in
  let parentCount :=
    ((if isAlive (Family.father family) then 1 else 0)
     + (if isAlive (Family.mother family) then 1 else 0))%nat in
  let total := total + Q_of_nat parentCount * DEDUCTION_PARENT in
  let childCount := List.length (filter isAlive (Family.children family)) in
  let total := total + Q_of_nat childCount * DEDUCTION_CHILD in
  total.

(** [Math.max(0, totalEstate - autoDeductionAmount)] *)
Definition taxableAmount (st : AppState) : number :=
  Qmax 0 (totalEstate st - autoDeductionAmount (family st)).

Definition tax (st : AppState) : number :=
  TaxResult.tax (calculateInheritanceTax (taxableAmount st)).

Definition afterTaxEstate (st : AppState) : number := totalEstate st - tax st.

(** The deduction items of [EstateTaxPanel], from its local counters. *)
Definition panelDeductions (localSpouse : bool) (localParents localChildren : nat)
    (activeOther : number) : list number :=
  [ESTATE_TAX_EXEMPTION; DEDUCTION_FUNERAL]
  ++ (if localSpouse then [DEDUCTION_SPOUSE] else [])
  ++ (if (0 <? localParents)%nat then [DEDUCTION_PARENT * Q_of_nat localParents] else [])
  ++ (if (0 <? localChildren)%nat then [DEDUCTION_CHILD * Q_of_nat localChildren] else [])
  ++ (if Qlt_bool 0 activeOther then [activeOther] else []).

Definition panelTotalDeduction (localSpouse : bool) (localParents localChildren : nat)
    (activeOther : number) : number :=
  fold_left Qplus (panelDeductions localSpouse localParents localChildren activeOther) 0.

(** The panel's counters as [useState] initialises them from the family. *)
Definition panelInitialDeduction (family : Family.t) (activeOther : number) : number :=
  panelTotalDeduction
    (isAlive (Family.spouse family))
    ((if isAlive (Family.father family) then 1 else 0)
     + (if isAlive (Family.mother family) then 1 else 0))%nat
    (List.length (filter isAlive (Family.children family)))
    activeOther.

Definition handleDragStart (asset : Asset.t) (st : AppState) : AppState :=
  mkState (family st) (assets st) (Some asset).

(** [targetLocation.endsWith('_spouse') || targetLocation.includes('_child_')] *)
Definition isExtendedZone (targetLocation : string) : bool :=
  endsWith targetLocation "_spouse" || includes targetLocation "_child_".

(** [heirs.find(h => h.id === targetLocation)] *)
Definition targetHeir (family : Family.t) (targetLocation : string) : option Heir.t :=
  find (fun h => String.eqb (Heir.id h) targetLocation) (heirs family).

(** The early [return] of [handleDrop]:
    [!targetHeir && targetLocation !== 'pool' && !isExtendedZone]. *)
Definition dropRejected (family : Family.t) (targetLocation : string) : bool :=
  match targetHeir family targetLocation with
  | Some _ => false
  | None => negb (String.eqb targetLocation "pool") && negb (isExtendedZone targetLocation)
  end.

(** [prev.map(a => a.id === draggedAsset.id ? { ...a, location } : a)] *)
Definition relocate (dragged : Asset.t) (targetLocation : string)
    (l : list Asset.t) : list Asset.t :=
  map (fun a => if String.eqb (Asset.id a) (Asset.id dragged)
                then Asset.withLocation a targetLocation else a) l.

Definition handleDrop (targetLocation : string) (st : AppState) : AppState :=
  match draggedAsset st with
  | None => st
  | Some dragged =>
      if dropRejected (family st) targetLocation then st
      else mkState (family st) (relocate dragged targetLocation (assets st)) None
  end.

(** [handleResetAllocation]; [confirmed] is the answer to [confirm(..)]. *)
Definition handleResetAllocation (confirmed : bool) (st : AppState) : AppState :=
  if confirmed
  then mkState (family st)
               (map (fun a => Asset.withLocation a "pool") (assets st))
               (draggedAsset st)
  else st.

(** [prev.map(a => a.location === id ? { ...a, location: 'pool' } : a)] *)
Definition releaseTo_pool (id : string) (l : list Asset.t) : list Asset.t :=
  map (fun a => if String.eqb (Asset.location a) id
                then Asset.withLocation a "pool" else a) l.

Definition removeChild (id : string) (st : AppState) : AppState :=
  mkState
    (Family.withChildren (family st)
       (filter (fun c => negb (String.eqb (FamilyMember.id c) id))
               (Family.children (family st))))
    (releaseTo_pool id (assets st))
    (draggedAsset st).

Definition removeSibling (id : string) (st : AppState) : AppState :=
  mkState
    (Family.withSiblings (family st)
       (filter (fun s => negb (String.eqb (FamilyMember.id s) id))
               (Family.siblings (family st))))
    (releaseTo_pool id (assets st))
    (draggedAsset st).

(** ** The reserved portion ([HeirCard]) *)

(** [assets.some(a => a.location !== 'pool')] *)
Definition hasAllocationStarted (assets : list Asset.t) : bool :=
  existsb (fun a => negb (String.eqb (Asset.location a) "pool")) assets.

(** The body of [HeirCard] up to [isUnderReserved]; the arguments are the
    component's props. *)
Definition isUnderReserved (heir : Heir.t) (assets : list Asset.t)
    (legalShare totalEstate : number) (isHeir hasAllocationStarted : bool) : bool :=
  let totalReceived :=
    sumAmounts (filter (fun a => String.eqb (Asset.location a) (Heir.id heir)) assets) in
  let expectedAmount := totalEstate * legalShare in
  let reservedAmount := expectedAmount / 2 in
  isHeir && hasAllocationStarted && Qlt_bool totalReceived reservedAmount.

(** The [assets] prop each card receives: a child's card also gets the assets
    of its extended slots, every other card the assets at the person's id. *)
Definition cardAssets (heir : Heir.t) (assets : list Asset.t) : list Asset.t :=
  if Heir.relationIs heir "child" then
    filter (fun a =>
              String.eqb (Asset.location a) (Heir.id heir)
              || String.eqb (Asset.location a) (Heir.id heir ++ "_spouse")
              || includes (Asset.location a) (Heir.id heir ++ "_child_")) assets
  else filter (fun a => String.eqb (Asset.location a) (Heir.id heir)) assets.

(** [isUnderReserved] as the allocation screen instantiates a card. *)
Definition underReserved (st : AppState) (heir : Heir.t) : bool :=
  isUnderReserved heir (cardAssets heir (assets st)) (Heir.legalShare heir)
    (afterTaxEstate st) (Heir.isHeir heir) (hasAllocationStarted (assets st)).

(** ** Events of the allocation screen *)

Inductive Event :=
| DragStart (asset : Asset.t)
| Drop (targetLocation : string)
| ResetAllocation (confirmed : bool).

Definition step (st : AppState) (e : Event) : AppState :=
  match e with
  | DragStart a => handleDragStart a st
  | Drop target => handleDrop target st
  | ResetAllocation c => handleResetAllocation c st
  end.

Definition run (es : list Event) (st : AppState) : AppState :=
  fold_left step es st.

(** A record without its location: what relocation must not touch. *)
Definition identityOf (a : Asset.t) : string * AssetType * number * option string :=
  (Asset.id a, Asset.type a, Asset.amount a, Asset.name a).



(** What a heir holds in person: the amounts at exactly [id]. *)
Fixpoint receivedAt (id : string) (l : list Asset.t) : number :=
  match l with
  | [] => 0
  | a :: l' => (if String.eqb (Asset.location a) id then Asset.amount a else 0)
               + receivedAt id l'
  end.

(** [ESTATE_TAX_BRACKETS[i]] *)
Definition bracketAt (i : nat) : Bracket.t :=
  nth i ESTATE_TAX_BRACKETS (Bracket.mk None 0 0).

(** The tax and the marginal rate of a taxable amount. *)
Definition taxOf (taxableAmount : number) : number :=
  TaxResult.tax (calculateInheritanceTax taxableAmount).
Definition rateOf (taxableAmount : number) : number :=
  TaxResult.rate (calculateInheritanceTax taxableAmount).

(** ** Building a family ("家庭資料處理") *)

Definition INITIAL_FAMILY : Family.t :=
  Family.mk "" male
    (FamilyMember.mk "spouse" "配偶" female NONE None None (Some false) (Some false) None)
    (FamilyMember.mk "father" "父" male ALIVE None None None None None)
    (FamilyMember.mk "mother" "母" female ALIVE None None None None None)
    [] [].

Definition withStatus (m : FamilyMember.t) (s : PersonStatusType) : FamilyMember.t :=
  FamilyMember.mk (FamilyMember.id m) (FamilyMember.name m) (FamilyMember.gender m) s
    (FamilyMember.relation m) (FamilyMember.relationLabel m)
    (FamilyMember.hasSpouse m) (FamilyMember.hasChildren m) (FamilyMember.childCount m).

Definition updateSpouse (hasSpouse : bool) (prev : Family.t) : Family.t :=
  Family.mk (Family.self_name prev) (Family.self_gender prev)
    (withStatus (Family.spouse prev) (if hasSpouse then ALIVE else NONE))
    (Family.father prev) (Family.mother prev)
    (Family.children prev) (Family.siblings prev).

Inductive ParentRole := roleFather | roleMother.

Definition updateParent (role : ParentRole) (status : PersonStatusType)
    (prev : Family.t) : Family.t :=
  match role with
  | roleFather =>
      Family.mk (Family.self_name prev) (Family.self_gender prev) (Family.spouse prev)
        (withStatus (Family.father prev) status) (Family.mother prev)
        (Family.children prev) (Family.siblings prev)
  | roleMother =>
      Family.mk (Family.self_name prev) (Family.self_gender prev) (Family.spouse prev)
        (Family.father prev) (withStatus (Family.mother prev) status)
        (Family.children prev) (Family.siblings prev)
  end.

(** [addChild] and [addSibling]; [newId] is what [generateId()] returned. *)
Definition addChild (newId : string) (prev : Family.t) : Family.t :=
  Family.withChildren prev
    (Family.children prev ++
     [FamilyMember.mk newId
        ("子女 " ++ string_of_nat (List.length (Family.children prev) + 1) ++ " ")%string
        male ALIVE None None None None None]).

Definition addSibling (newId : string) (prev : Family.t) : Family.t :=
  Family.withSiblings prev
    (Family.siblings prev ++
     [FamilyMember.mk newId
        ("兄弟姊妹 " ++ string_of_nat (List.length (Family.siblings prev) + 1))%string
        male ALIVE None None None None None]).

(** ** Sample families and ledgers

    Each family is reached from [INITIAL_FAMILY] by the handlers above. *)

(** Spouse and two children, parents not alive. *)
Definition familySpouseTwoChildren : Family.t :=
  addChild "k3x9q2b" (addChild "a7f2m1c"
    (updateParent roleMother NONE (updateParent roleFather NONE
      (updateSpouse true INITIAL_FAMILY)))).


(** Both parents alive and one child: the children class is active. *)
Definition familyParentsOneChild : Family.t := addChild "a7f2m1c" INITIAL_FAMILY.

(** A spouse alone. *)
Definition familySpouseAlone : Family.t :=
  updateParent roleMother NONE (updateParent roleFather NONE
    (updateSpouse true INITIAL_FAMILY)).

(** Two assets in the pool, 50,000,000 in total. *)
Definition sampleCash : Asset.t := Asset.mk "c4sh001" cash 30000000 "pool" None.
Definition sampleHouse : Asset.t :=
  Asset.mk "h0use01" property 20000000 "pool" (Some "home").
Definition ledger50M : list Asset.t := [sampleCash; sampleHouse].

(** The default parents and one child, the cash asset being dragged. *)
Definition draggingCash : AppState :=
  handleDragStart sampleCash (mkState familyParentsOneChild ledger50M None).

(** The first child of [familySpouseTwoChildren], as a candidate. *)
Definition sampleChild : FamilyMember.t :=
  FamilyMember.withRelation
    (nth 0 (Family.children familySpouseTwoChildren) (Family.spouse INITIAL_FAMILY))
    "child" "子女".

(** One child with an asset of its own, one in each kind of extended slot,
    and one asset with the mother. *)
Definition allocatedAroundChild : AppState :=
  mkState familyParentsOneChild
    [ Asset.withLocation sampleCash "a7f2m1c";
      Asset.withLocation sampleHouse "a7f2m1c_spouse";
      Asset.mk "st0ck01" stock 5000000 "a7f2m1c_child_0" None;
      Asset.mk "c4sh002" cash 1000000 "mother" None ]
    None.

(** Spouse and two children; the cash went to the spouse, the house is still
    in the pool. *)
Definition spouseHoldsCash : AppState :=
  mkState familySpouseTwoChildren
    [Asset.withLocation sampleCash "spouse"; sampleHouse] None.

(** ** binary64 cross-checks

    The tax function once more, on IEEE doubles as JavaScript evaluates it,
    to compare with the exact model at the amounts the specification names. *)

Module Bracket64.
Record t := mk { limit : float; rate : float; deduction : float }.
End Bracket64.

Definition ESTATE_TAX_BRACKETS64 : list Bracket64.t :=
  [ Bracket64.mk 56210000 0.10 0;
    Bracket64.mk 112420000 0.15 2810500;
    Bracket64.mk infinity 0.20 8431500 ]%float.

Definition bracketFormula64 (b : Bracket64.t) (taxableAmount : float) : float :=
  (taxableAmount * Bracket64.rate b - Bracket64.deduction b)%float.

(** [Math.max(0, tax)] for a [tax] that is a number. *)
Definition max0_64 (tax : float) : float :=
  if (0 <=? tax)%float then tax else 0%float.

Definition calculateInheritanceTax64 (taxableAmount : float) : float * float :=
  if (taxableAmount <=? 0)%float then (0, 0)%float
  else
    let bracket :=
      match find (fun b => (taxableAmount <=? Bracket64.limit b)%float)
                 ESTATE_TAX_BRACKETS64 with
      | Some b => b
      | None => nth (List.length ESTATE_TAX_BRACKETS64 - 1)%nat ESTATE_TAX_BRACKETS64
                    (Bracket64.mk infinity 0 0)
      end in
    (max0_64 (bracketFormula64 bracket taxableAmount), Bracket64.rate bracket).

Definition bracketAt64 (i : nat) : Bracket64.t :=
  nth i ESTATE_TAX_BRACKETS64 (Bracket64.mk infinity 0 0).

(** A small count as a double (exact far beyond any family size). *)
Fixpoint float_of_nat (n : nat) : float :=
  match n with
  | O => 0%float
  | S n' => (float_of_nat n' + 1)%float
  end.

(** [n] heirs with the share [1 / n] each, added up from 0 in list order. *)
Fixpoint sumCopies64 (n : nat) (x acc : float) : float :=
  match n with
  | O => acc
  | S n' => sumCopies64 n' x (acc + x)%float
  end.

Definition equalSharesWithinTolerance64 (n : nat) : bool :=
  (abs (sumCopies64 n (1 / float_of_nat n) 0 - 1) <=? 1e-9)%float.

(** ** The tax panel ([EstateTaxPanel]) *)

(** [taxableAmount > b.limit] *)
Definition aboveLimit (taxableAmount : number) (b : Bracket.t) : bool :=
  match Bracket.limit b with
  | Some l => Qlt_bool l taxableAmount
  | None => false
  end.

(** The test that highlights row [i] of the bracket table:
    [taxableAmount <= b.limit && (i === 0 || taxableAmount > BRACKETS[i - 1].limit)]. *)
Definition rowHighlighted (taxableAmount : number) (i : nat) : bool :=
  withinLimit taxableAmount (bracketAt i)
  && ((i =? 0)%nat || aboveLimit taxableAmount (bracketAt (i - 1))).

(** The indices of the highlighted rows, in table order. *)
Definition highlightedRows (taxableAmount : number) : list nat :=
  filter (rowHighlighted taxableAmount) (seq 0 (List.length ESTATE_TAX_BRACKETS)).

(** The panel's local state; [localOther] holds what [parseFloat] makes of the
    text field ([None] for [NaN]). *)
Module Panel.
Record t := mk {
  localSpouse : bool;
  localChildren : nat;
  localParents : nat;
  localOther : option number
}.
End Panel.

(** The [useState] initialisers; the text field starts empty. *)
Definition panelMount (initialFamily : Family.t) : Panel.t :=
  Panel.mk
    (isAlive (Family.spouse initialFamily))
    (List.length (filter isAlive (Family.children initialFamily)))
    ((if isAlive (Family.father initialFamily) then 1 else 0)
     + (if isAlive (Family.mother initialFamily) then 1 else 0))%nat
    None.

(** [(parseFloat(localOther) || 0) * 10000] *)
Definition activeOther (p : Panel.t) : number :=
  (match Panel.localOther p with Some v => v | None => 0 end) * 10000.

Inductive PanelAction :=
| SetLocalSpouse (checked : bool)
| ChildrenMinus
| ChildrenPlus
| ParentsMinus
| ParentsPlus
| SetLocalOther (parsed : option number).

(** The [onChange] and [onClick] handlers of the panel; on counters
    [Math.max(0, n - 1)] is the truncated subtraction. *)
Definition panelStep (p : Panel.t) (a : PanelAction) : Panel.t :=
  match a with
  | SetLocalSpouse checked =>
      Panel.mk checked (Panel.localChildren p) (Panel.localParents p) (Panel.localOther p)
  | ChildrenMinus =>
      Panel.mk (Panel.localSpouse p) (Panel.localChildren p - 1)%nat
        (Panel.localParents p) (Panel.localOther p)
  | ChildrenPlus =>
      Panel.mk (Panel.localSpouse p) (Panel.localChildren p + 1)%nat
        (Panel.localParents p) (Panel.localOther p)
  | ParentsMinus =>
      Panel.mk (Panel.localSpouse p) (Panel.localChildren p)
        (Panel.localParents p - 1)%nat (Panel.localOther p)
  | ParentsPlus =>
      Panel.mk (Panel.localSpouse p) (Panel.localChildren p)
        (Nat.min 2 (Panel.localParents p + 1)) (Panel.localOther p)
  | SetLocalOther parsed =>
      Panel.mk (Panel.localSpouse p) (Panel.localChildren p) (Panel.localParents p) parsed
  end.

Definition panelRun (actions : list PanelAction) (p : Panel.t) : Panel.t :=
  fold_left panelStep actions p.

(** [totalDeduction], [taxableAmount] and [calculateInheritanceTax(..)] of the
    panel; [activeAssets] is the total estate. *)
Definition panelDeduction (p : Panel.t) : number :=
  panelTotalDeduction (Panel.localSpouse p) (Panel.localParents p)
    (Panel.localChildren p) (activeOther p).

Definition panelTaxable (activeAssets : number) (p : Panel.t) : number :=
  Qmax 0 (activeAssets - panelDeduction p).

Definition panelTax (activeAssets : number) (p : Panel.t) : TaxResult.t :=
  calculateInheritanceTax (panelTaxable activeAssets p).

(** ** Amounts shown on a card ([HeirCard]) *)

(** [expectedAmount] and [reservedAmount] of a card; [totalEstate] is the
    prop, which the allocation screen sets to the after-tax estate. *)
Definition expectedAmount (legalShare totalEstate : number) : number :=
  totalEstate * legalShare.
Definition reservedAmount (legalShare totalEstate : number) : number :=
  expectedAmount legalShare totalEstate / 2.


(** Spouse and two siblings, no parents, no children. *)
Definition familySpouseTwoSiblings : Family.t :=
  addSibling "s2b8d4e" (addSibling "s1b5k0z" familySpouseAlone).

(** The first sibling of [familySpouseTwoSiblings], as a candidate. *)
Definition sampleSibling : FamilyMember.t :=
  FamilyMember.withRelation
    (nth 0 (Family.siblings familySpouseTwoSiblings) (Family.spouse INITIAL_FAMILY))
    "sibling" "兄弟姊妹".

(** ** Editing a child or a sibling ("家庭資料處理") *)

Definition withName (m : FamilyMember.t) (name : string) : FamilyMember.t :=
  FamilyMember.mk (FamilyMember.id m) name (FamilyMember.gender m) (FamilyMember.status m)
    (FamilyMember.relation m) (FamilyMember.relationLabel m)
    (FamilyMember.hasSpouse m) (FamilyMember.hasChildren m) (FamilyMember.childCount m).

Definition withGender (m : FamilyMember.t) (gender : Gender) : FamilyMember.t :=
  FamilyMember.mk (FamilyMember.id m) (FamilyMember.name m) gender (FamilyMember.status m)
    (FamilyMember.relation m) (FamilyMember.relationLabel m)
    (FamilyMember.hasSpouse m) (FamilyMember.hasChildren m) (FamilyMember.childCount m).

Inductive MetaField := fieldHasSpouse | fieldHasChildren.

(** [{ ...c, [field]: value, childCount: field === 'hasChildren' && value ? 1
       : (field === 'hasChildren' && !value ? 0 : c.childCount) }] *)
Definition withMeta (c : FamilyMember.t) (field : MetaField) (value : bool)
    : FamilyMember.t :=
  FamilyMember.mk (FamilyMember.id c) (FamilyMember.name c) (FamilyMember.gender c)
    (FamilyMember.status c) (FamilyMember.relation c) (FamilyMember.relationLabel c)
    (match field with fieldHasSpouse => Some value | _ => FamilyMember.hasSpouse c end)
    (match field with fieldHasChildren => Some value | _ => FamilyMember.hasChildren c end)
    (match field with
     | fieldHasChildren => if value then Some 1 else Some 0
     | fieldHasSpouse => FamilyMember.childCount c
     end).

(** [{ ...c, childCount: Math.max(0, count) }] *)
Definition withChildCount (c : FamilyMember.t) (count : number) : FamilyMember.t :=
  FamilyMember.mk (FamilyMember.id c) (FamilyMember.name c) (FamilyMember.gender c)
    (FamilyMember.status c) (FamilyMember.relation c) (FamilyMember.relationLabel c)
    (FamilyMember.hasSpouse c) (FamilyMember.hasChildren c) (Some (Qmax 0 count)).

(** [list.map(c => c.id === id ? g(c) : c)] *)
Definition updateMember (id : string) (g : FamilyMember.t -> FamilyMember.t)
    (l : list FamilyMember.t) : list FamilyMember.t :=
  map (fun c => if String.eqb (FamilyMember.id c) id then g c else c) l.

Definition updateChildName (id name : string) (prev : Family.t) : Family.t :=
  Family.withChildren prev
    (updateMember id (fun c => withName c name) (Family.children prev)).

Definition updateChildGender (id : string) (gender : Gender) (prev : Family.t) : Family.t :=
  Family.withChildren prev
    (updateMember id (fun c => withGender c gender) (Family.children prev)).

Definition updateChildMeta (id : string) (field : MetaField) (value : bool)
    (prev : Family.t) : Family.t :=
  Family.withChildren prev
    (updateMember id (fun c => withMeta c field value) (Family.children prev)).

Definition updateChildCount (id : string) (count : number) (prev : Family.t) : Family.t :=
  Family.withChildren prev
    (updateMember id (fun c => withChildCount c count) (Family.children prev)).

Definition updateSiblingName (id name : string) (prev : Family.t) : Family.t :=
  Family.withSiblings prev
    (updateMember id (fun s => withName s name) (Family.siblings prev)).

Definition updateSiblingGender (id : string) (gender : Gender) (prev : Family.t)
    : Family.t :=
  Family.withSiblings prev
    (updateMember id (fun s => withGender s gender) (Family.siblings prev)).

(** The handlers that edit a person without touching id or status. *)
Inductive FamilyEdit :=
| EditChildName (id name : string)
| EditChildGender (id : string) (gender : Gender)
| EditChildMeta (id : string) (field : MetaField) (value : bool)
| EditChildCount (id : string) (count : number)
| EditSiblingName (id name : string)
| EditSiblingGender (id : string) (gender : Gender).

Definition applyEdit (e : FamilyEdit) (prev : Family.t) : Family.t :=
  match e with
  | EditChildName id name => updateChildName id name prev
  | EditChildGender id gender => updateChildGender id gender prev
  | EditChildMeta id field value => updateChildMeta id field value prev
  | EditChildCount id count => updateChildCount id count prev
  | EditSiblingName id name => updateSiblingName id name prev
  | EditSiblingGender id gender => updateSiblingGender id gender prev
  end.

(** What the allocation screen uses of a record: who it is and what it gets. *)
Definition heirView (h : Heir.t)
    : string * option string * PersonStatusType * bool * string * number :=
  (Heir.id h, Heir.relation h, Heir.status h, Heir.isHeir h, Heir.share h,
   Heir.legalShare h).

Definition idStatus (m : FamilyMember.t) : string * PersonStatusType :=
  (FamilyMember.id m, FamilyMember.status m).

(** ** More of the ledger ("資產處理") *)

(** [assets.filter(a => a.location === 'pool')] *)
Definition poolAssets (assets : list Asset.t) : list Asset.t :=
  filter (fun a => String.eqb (Asset.location a) "pool") assets.

(** [Object.keys(ASSET_TYPES)] *)
Definition typeOrder : list AssetType := [cash; stock; property].

Definition AssetType_eqb (a b : AssetType) : bool :=
  match a, b with
  | cash, cash | stock, stock | property, property => true
  | _, _ => false
  end.

(** [list.indexOf(t)]: the first position of [t], or -1. *)
Fixpoint indexOf (t : AssetType) (l : list AssetType) : Z :=
  match l with
  | [] => (-1)%Z
  | x :: l' =>
      if AssetType_eqb x t then 0%Z
      else let i := indexOf t l' in if (i <? 0)%Z then (-1)%Z else (i + 1)%Z
  end.

(** The comparator of [handleConfirmAdd]: by type, then by amount, largest
    first. *)
Definition compareAssets (a b : Asset.t) : number :=
  let typeDiff :=
    inject_Z (indexOf (Asset.type a) typeOrder - indexOf (Asset.type b) typeOrder) in
  if negb (Qeq_bool typeDiff 0) then typeDiff
  else Asset.amount b - Asset.amount a.

(** [list.sort(cmp)]: the sort is stable, so for a consistent comparator the
    result is determined; it is computed here by inserting from the right,
    each element in front of the first one it does not have to follow. *)
Fixpoint insertSorted (cmp : Asset.t -> Asset.t -> number) (x : Asset.t)
    (l : list Asset.t) : list Asset.t :=
  match l with
  | [] => [x]
  | y :: l' => if Qle_bool (cmp x y) 0 then x :: y :: l' else y :: insertSorted cmp x l'
  end.

Definition sortStable (cmp : Asset.t -> Asset.t -> number) (l : list Asset.t)
    : list Asset.t :=
  fold_right (insertSorted cmp) [] l.

(** The asset [handleConfirmAdd] builds: [amountVal] is what [parseInt] made
    of the amount field, in units of 10,000; [trimmedName] is
    [pendingName.trim()]. *)
Definition newAsset (newId : string) (pendingType : AssetType) (amountVal : Z)
    (trimmedName : string) : Asset.t :=
  Asset.mk newId pendingType (inject_Z amountVal * 10000) "pool"
    (if String.eqb trimmedName "" then None else Some trimmedName).

(** [handleConfirmAdd]; [amountVal = None] stands for [NaN] and [newId] for
    the result of [generateId()]. *)
Definition handleConfirmAdd (newId : string) (pendingType : AssetType)
    (amountVal : option Z) (trimmedName : string) (st : AppState) : AppState :=
  match amountVal with
  | None => st
  | Some v =>
      if (v <=? 0)%Z then st
      else mkState (family st)
             (sortStable compareAssets
                (assets st ++ [newAsset newId pendingType v trimmedName]))
             (draggedAsset st)
  end.

(** [handleDeleteAsset]; [confirmed] is the answer to [confirm(..)]. *)
Definition handleDeleteAsset (confirmed : bool) (assetId : string) (st : AppState)
    : AppState :=
  match find (fun a => String.eqb (Asset.id a) assetId) (assets st) with
  | None => st
  | Some asset =>
      if negb (String.eqb (Asset.location asset) "pool") then st
      else if confirmed
           then mkState (family st)
                  (filter (fun a => negb (String.eqb (Asset.id a) assetId)) (assets st))
                  (draggedAsset st)
           else st
  end.

(** [{ ...a, amount: x }] *)
Definition withAmount (a : Asset.t) (x : number) : Asset.t :=
  Asset.mk (Asset.id a) (Asset.type a) x (Asset.location a) (Asset.name a).

Definition handleAssetAmountChange (assetId : string) (newAmount : number)
    (st : AppState) : AppState :=
  mkState (family st)
    (map (fun a => if String.eqb (Asset.id a) assetId
                   then withAmount a (Qmax 0 newAmount) else a) (assets st))
    (draggedAsset st).

(** The amount the pool's input passes on: [(parseInt(value) || 0) * 10000]. *)
Definition amountInput (parsed : option Z) : number :=
  inject_Z (match parsed with Some v => v | None => 0%Z end) * 10000.

(** The order the comparator sorts by. *)
Definition sortedBefore (a b : Asset.t) : Prop := compareAssets a b <= 0.

(** ** Sessions

    Every handler that changes the family or the ledger, as one action type,
    and the state the component starts in.  An amount edited in the pool
    goes through [amountInput], the only caller of
    [handleAssetAmountChange]. *)

Inductive Action :=
| DoUpdateSpouse (hasSpouse : bool)
| DoUpdateParent (role : ParentRole) (status : PersonStatusType)
| DoAddChild (newId : string)
| DoRemoveChild (id : string)
| DoAddSibling (newId : string)
| DoRemoveSibling (id : string)
| DoEdit (e : FamilyEdit)
| DoEvent (e : Event)
| DoConfirmAdd (newId : string) (pendingType : AssetType) (amountVal : option Z)
               (trimmedName : string)
| DoDeleteAsset (confirmed : bool) (assetId : string)
| DoAmountInput (assetId : string) (parsed : option Z).

(** [setFamily(prev => g(prev))] *)
Definition setFamily (g : Family.t -> Family.t) (st : AppState) : AppState :=
  mkState (g (family st)) (assets st) (draggedAsset st).

Definition dispatch (st : AppState) (a : Action) : AppState :=
  match a with
  | DoUpdateSpouse b => setFamily (updateSpouse b) st
  | DoUpdateParent role status => setFamily (updateParent role status) st
  | DoAddChild newId => setFamily (addChild newId) st
  | DoRemoveChild id => removeChild id st
  | DoAddSibling newId => setFamily (addSibling newId) st
  | DoRemoveSibling id => removeSibling id st
  | DoEdit e => setFamily (applyEdit e) st
  | DoEvent e => step st e
  | DoConfirmAdd newId ty v name => handleConfirmAdd newId ty v name st
  | DoDeleteAsset confirmed assetId => handleDeleteAsset confirmed assetId st
  | DoAmountInput assetId parsed =>
      handleAssetAmountChange assetId (amountInput parsed) st
  end.

(** [useState(INITIAL_FAMILY)], [useState([])], [useState(null)] *)
Definition initialState : AppState := mkState INITIAL_FAMILY [] None.

Definition session (actions : list Action) : AppState :=
  fold_left dispatch actions initialState.

(** An amount of whole units of 10,000, none negative. *)
Definition wholeUnits (x : number) : Prop :=
  exists k : Z, (0 <= k)%Z /\ x == inject_Z k * 10000.

(** What every session keeps: amounts in whole units, children and siblings
    alive, a spouse that is absent or alive. *)
Definition sessionInvariant (st : AppState) : Prop :=
  (forall a, In a (assets st) -> wholeUnits (Asset.amount a)) /\
  (forall c, In c (Family.children (family st)) -> FamilyMember.status c = ALIVE) /\
  (forall s, In s (Family.siblings (family st)) -> FamilyMember.status s = ALIVE) /\
  FamilyMember.status (Family.spouse (family st)) <> DECEASED.

(** ** Share labels ([gcd], [formatShareRatio]) *)

(** [gcd]: [b === 0 ? a : gcd(b, a % b)], on integers; [%] is the remainder
    with the sign of the dividend.  [fuel] bounds the number of calls; the
    second argument shrinks in absolute value, so [|b| + 1] calls suffice. *)
Fixpoint gcdFuel (fuel : nat) (a b : Z) : Z :=
  match fuel with
  | O => a
  | S fuel' => if (b =? 0)%Z then a else gcdFuel fuel' b (Z.rem a b)
  end.

Definition gcd (a b : Z) : Z := gcdFuel (S (Z.abs_nat b)) a b.

Definition tolerance : number := 1e-8.

(** [Math.round]: the nearest integer, a half going up. *)
Definition round (x : number) : Z := Qfloor (x + 1 / 2).

(** An integer inside a template literal. *)
Definition string_of_Z (z : Z) : string := NilZero.string_of_int (Z.to_int z).

(** One turn of the loop of [formatShareRatio]: the reduced fraction it
    returns for [denominator], or [None] when the loop goes on.  The two
    quotients by [divisor] are exact. *)
Definition ratioAt (share : number) (denominator : Z) : option (Z * Z) :=
  let numerator := round (share * inject_Z denominator) in
  if (numerator =? 0)%Z then None
  else if Qlt_bool (Qabs (share - inject_Z numerator / inject_Z denominator)) tolerance
       then let divisor := gcd (Z.abs numerator) denominator in
            Some ((numerator / divisor)%Z, (denominator / divisor)%Z)
       else None.

(** The loop, over the denominators still to try. *)
Fixpoint firstRatio (share : number) (denominators : list nat) : option (Z * Z) :=
  match denominators with
  | [] => None
  | d :: ds =>
      match ratioAt share (Z.of_nat d) with
      | Some r => Some r
      | None => firstRatio share ds
      end
  end.

(** [x.toFixed(2)] for [x >= 0]: the nearest hundredth, a half going up. *)
Definition toFixed2 (x : number) : string :=
  let n := round (x * 100) in
  (string_of_Z (n / 100) ++ "."
   ++ (if (n mod 100 <? 10)%Z then "0" else "") ++ string_of_Z (n mod 100))%string.

Fixpoint allZeros (s : string) : bool :=
  match s with
  | EmptyString => true
  | String c r => Ascii.eqb c "0" && allZeros r
  end.

(** [s] as a whole matches [\.?0+]. *)
Definition isZeroTail (s : string) : bool :=
  match s with
  | EmptyString => false
  | String c r =>
      if Ascii.eqb c "." then negb (String.eqb r "") && allZeros r else allZeros s
  end.

(** [s.replace(/\.?0+$/, '')]: the leftmost tail that matches is dropped. *)
Fixpoint stripZeroTail (s : string) : string :=
  if isZeroTail s then ""
  else match s with
       | EmptyString => ""
       | String c r => String c (stripZeroTail r)
       end.

Definition formatShareRatio (share : number) : string :=
  if Qle_bool share 0 then "0"
  else match firstRatio share (seq 1 120) with
       | Some (n, d) => (string_of_Z n ++ " / " ++ string_of_Z d)%string
       | None => (stripZeroTail (toFixed2 (share * 100)) ++ "%")%string
       end.

(** ** Drop zones the screen renders *)

(** [x] is truthy, for an optional boolean. *)
Definition truthy (b : option bool) : bool :=
  match b with Some true => true | _ => false end.

(** The number of grandchild slots of a card:
    [Array.from({ length: Math.max(1, heir.childCount || 1) })]. *)
Definition slotCount (h : Heir.t) : nat :=
  let count :=
    match FamilyMember.childCount (Heir.member h) with
    | Some c => if Qeq_bool c 0 then 1 else c
    | None => 1
    end in
  Z.to_nat (Qfloor (Qmax 1 count)).

(** The targets [HeirCard] passes to [onDrop]: the card itself and, for a
    child with a spouse or children, the spouse slot and the grandchild
    slots. *)
Definition cardTargets (h : Heir.t) : list string :=
  Heir.id h
  :: (if Heir.relationIs h "child"
         && (truthy (FamilyMember.hasSpouse (Heir.member h))
             || truthy (FamilyMember.hasChildren (Heir.member h)))
      then (if truthy (FamilyMember.hasSpouse (Heir.member h))
            then [(Heir.id h ++ "_spouse")%string] else [])
           ++ (if truthy (FamilyMember.hasChildren (Heir.member h))
               then map (fun index =>
                           (Heir.id h ++ "_child_" ++ string_of_nat index)%string)
                        (seq 0 (slotCount h))
               else [])
      else []).

(** Every target the allocation screen wires to [handleDrop]: the pool and
    the targets of every card. *)
Definition dropTargets (f : Family.t) : list string :=
  "pool" :: flat_map cardTargets (heirs f).

(** * Proofs *)

(** ** Estate tax *)

Lemma Qle_bool_false_iff (a b : Q) : Qle_bool a b = false <-> b < a.
Proof.
  split; intro H.
  - apply Qnot_le_lt. intro Hle. apply Qle_bool_iff in Hle. congruence.
  - destruct (Qle_bool a b) eqn:E; [|reflexivity].
    apply Qle_bool_iff in E. exfalso. apply (Qlt_not_le _ _ H E).
Qed.

Lemma Qlt_bool_iff (a b : Q) : Qlt_bool a b = true <-> a < b.
Proof.
  unfold Qlt_bool. rewrite negb_true_iff. apply Qle_bool_false_iff.
Qed.

(** The bracket [find] selects, and what [calculateInheritanceTax] returns
    there, for each of the four ranges of the taxable amount. *)
Lemma calculateInheritanceTax_spec (x : number) :
  (x <= 0 /\ calculateInheritanceTax x = TaxResult.mk 0 0) \/
  (0 < x /\ x <= 56210000 /\
   taxOf x == bracketFormula (bracketAt 0) x /\ rateOf x = 0.10) \/
  (56210000 < x /\ x <= 112420000 /\
   taxOf x == bracketFormula (bracketAt 1) x /\ rateOf x = 0.15) \/
  (112420000 < x /\
   taxOf x == bracketFormula (bracketAt 2) x /\ rateOf x = 0.20).
Proof.
  unfold taxOf, rateOf, calculateInheritanceTax, bracketFormula, bracketAt.
  cbn [nth ESTATE_TAX_BRACKETS Bracket.rate Bracket.deduction].
  destruct (Qle_bool x 0) eqn:E0.
  - left. apply Qle_bool_iff in E0. split; [assumption|reflexivity].
  - right. apply Qle_bool_false_iff in E0.
    cbn [find ESTATE_TAX_BRACKETS withinLimit Bracket.limit].
    destruct (Qle_bool x 56210000) eqn:E1.
    + left. apply Qle_bool_iff in E1.
      cbn [TaxResult.tax TaxResult.rate Bracket.rate Bracket.deduction].
      repeat split; try assumption.
      apply Q.max_r. lra.
    + right. apply Qle_bool_false_iff in E1.
      destruct (Qle_bool x 112420000) eqn:E2.
      * left. apply Qle_bool_iff in E2.
        cbn [TaxResult.tax TaxResult.rate Bracket.rate Bracket.deduction].
        repeat split; try assumption.
        apply Q.max_r. lra.
      * right. apply Qle_bool_false_iff in E2.
        cbn [TaxResult.tax TaxResult.rate Bracket.rate Bracket.deduction].
        repeat split; try assumption.
        apply Q.max_r. lra.
Qed.

Lemma bracketFormula_0 (x : number) : bracketFormula (bracketAt 0) x == x * 0.10.
Proof. unfold bracketFormula, bracketAt. cbn. lra. Qed.

Lemma bracketFormula_1 (x : number) :
  bracketFormula (bracketAt 1) x == x * 0.15 - 2810500.
Proof. unfold bracketFormula, bracketAt. cbn. lra. Qed.

Lemma bracketFormula_2 (x : number) :
  bracketFormula (bracketAt 2) x == x * 0.20 - 8431500.
Proof. unfold bracketFormula, bracketAt. cbn. lra. Qed.

(** The tax in closed form on each range. *)
Lemma taxOf_cases (x : number) :
  (x <= 0 /\ taxOf x == 0) \/
  (0 < x /\ x <= 56210000 /\ taxOf x == x * 0.10) \/
  (56210000 < x /\ x <= 112420000 /\ taxOf x == x * 0.15 - 2810500) \/
  (112420000 < x /\ taxOf x == x * 0.20 - 8431500).
Proof.
  destruct (calculateInheritanceTax_spec x)
    as [[H E] | [[H0 [H1 [E _]]] | [[H0 [H1 [E _]]] | [H0 [E _]]]]].
  - left. split; [assumption|]. unfold taxOf. rewrite E. reflexivity.
  - right; left. rewrite E, bracketFormula_0. repeat split; try assumption; reflexivity.
  - right; right; left. rewrite E, bracketFormula_1.
    repeat split; try assumption; reflexivity.
  - right; right; right. rewrite E, bracketFormula_2.
    repeat split; try assumption; reflexivity.
Qed.

Lemma taxOf_monotone (x y : number) : x <= y -> taxOf x <= taxOf y.
Proof.
  intro Hxy.
  destruct (taxOf_cases x) as [[? Ex] | [[? [? Ex]] | [[? [? Ex]] | [? Ex]]]];
  destruct (taxOf_cases y) as [[? Ey] | [[? [? Ey]] | [[? [? Ey]] | [? Ey]]]];
  rewrite Ex, Ey; lra.
Qed.



(** ** The deduction pipeline *)

Lemma fold_left_Qplus_shift (A : Type) (f : A -> Q) (l : list A) (acc : Q) :
  fold_left (fun s a => s + f a) l acc == acc + fold_left (fun s a => s + f a) l 0.
Proof.
  revert acc. induction l as [|a l IH]; intro acc; simpl.
  - lra.
  - rewrite IH. rewrite (IH (0 + f a)). lra.
Qed.

Lemma autoDeductionAmount_counts (f : Family.t) :
  autoDeductionAmount f ==
    ESTATE_TAX_EXEMPTION + DEDUCTION_FUNERAL
    + (if isAlive (Family.spouse f) then DEDUCTION_SPOUSE else 0)
    + Q_of_nat ((if isAlive (Family.father f) then 1 else 0)
                + (if isAlive (Family.mother f) then 1 else 0)) * DEDUCTION_PARENT
    + Q_of_nat (List.length (livingChildren f)) * DEDUCTION_CHILD.
Proof.
  unfold autoDeductionAmount, livingChildren.
  destruct (isAlive (Family.spouse f)); lra.
Qed.

(** C5: with a 50,000,000 estate, the spouse alive, two living children, no
    living parent and no manual deduction, the total deduction is
    13,330,000 + 1,380,000 + 5,530,000 + 2 x 560,000 = 21,360,000 (on the main
    screen and in the tax panel alike), the taxable amount is 28,640,000 and
    the tax is 2,864,000 at the marginal rate of 10%. *)
Theorem tax_scenario_50M (st : AppState) :
  isAlive (Family.spouse (family st)) = true ->
  List.length (livingChildren (family st)) = 2%nat ->
  isAlive (Family.father (family st)) = false ->
  isAlive (Family.mother (family st)) = false ->
  totalEstate st == 50000000 ->
  autoDeductionAmount (family st) == 13330000 + 1380000 + 5530000 + 2 * 560000 /\
  autoDeductionAmount (family st) == 21360000 /\
  panelInitialDeduction (family st) 0 == 21360000 /\
  taxableAmount st == 28640000 /\
  tax st == 2864000 /\
  rateOf (taxableAmount st) = 0.10.
Proof.
  intros Hs Hc Hf Hm Ht.
  assert (Hd : autoDeductionAmount (family st) == 21360000).
  { rewrite autoDeductionAmount_counts, Hs, Hc, Hf, Hm. reflexivity. }
  assert (Hx : taxableAmount st == 28640000).
  { unfold taxableAmount. rewrite Q.max_r; rewrite Ht, Hd; [reflexivity|lra]. }
  split; [rewrite Hd; reflexivity|].
  split; [exact Hd|].
  split.
  { unfold panelInitialDeduction. fold (livingChildren (family st)).
    rewrite Hs, Hc, Hf, Hm. reflexivity. }
  split; [exact Hx|].
  unfold tax. fold (taxOf (taxableAmount st)).
  destruct (calculateInheritanceTax_spec (taxableAmount st))
    as [[H _] | [[H0 [H1 [E R]]] | [[H0 _] | [H0 _]]]]; try lra.
  split; [|exact R].
  rewrite E, bracketFormula_0, Hx. reflexivity.
Qed.

Lemma tax_scenario_50M_witness :
  tax (mkState familySpouseTwoChildren ledger50M None) == 2864000 /\
  rateOf (taxableAmount (mkState familySpouseTwoChildren ledger50M None)) = 0.10.
Proof.
  destruct (tax_scenario_50M (mkState familySpouseTwoChildren ledger50M None))
    as [_ [_ [_ [_ [Ht Hr]]]]]; try reflexivity.
  split; assumption.
Defined.

(** ** The heir resolver *)

Lemma member_resolveHeir (f : Family.t) (p : FamilyMember.t) :
  Heir.member (resolveHeir f p) = p.
Proof.
  unfold resolveHeir.
  repeat match goal with
         | |- context [if ?b then _ else _] => destruct b
         end; reflexivity.
Qed.




(** Where each candidate comes from. *)
Lemma allCandidates_inv (f : Family.t) (p : FamilyMember.t) :
  In p (allCandidates f) ->
  (p = FamilyMember.withRelation (Family.spouse f) "spouse" "配偶"
   /\ FamilyMember.status (Family.spouse f) <> NONE) \/
  (p = FamilyMember.withRelation (Family.father f) "parent" "父親"
   /\ FamilyMember.status (Family.father f) <> NONE) \/
  (p = FamilyMember.withRelation (Family.mother f) "parent" "母親"
   /\ FamilyMember.status (Family.mother f) <> NONE) \/
  (exists c, In c (Family.children f)
             /\ p = FamilyMember.withRelation c "child" "子女") \/
  (exists s, In s (Family.siblings f)
             /\ p = FamilyMember.withRelation s "sibling" "兄弟姊妹").
Proof.
  unfold allCandidates. rewrite !in_app_iff, !in_map_iff.
  intros [H | [H | [H | [H | H]]]].
  - left. destruct (FamilyMember.status (Family.spouse f)); cbn in H;
      [contradiction| |]; destruct H as [<- | []]; split; congruence.
  - right; left. destruct (FamilyMember.status (Family.father f)); cbn in H;
      [contradiction| |]; destruct H as [<- | []]; split; congruence.
  - right; right; left. destruct (FamilyMember.status (Family.mother f)); cbn in H;
      [contradiction| |]; destruct H as [<- | []]; split; congruence.
  - right; right; right; left. destruct H as [c [<- Hc]]. exists c. auto.
  - right; right; right; right. destruct H as [s [<- Hs]]. exists s. auto.
Qed.

Lemma heirs_inv (f : Family.t) (h : Heir.t) :
  In h (heirs f) -> exists p, In p (allCandidates f) /\ h = resolveHeir f p.
Proof.
  unfold heirs. rewrite in_map_iff. intros [p [<- Hp]]. exists p. auto.
Qed.








(** *** Share conservation *)


Lemma Q_of_nat_plus (n m : nat) : Q_of_nat (n + m) == Q_of_nat n + Q_of_nat m.
Proof.
  unfold Q_of_nat. rewrite Nat2Z.inj_add, inject_Z_plus. reflexivity.
Qed.




Lemma resolveHeir_child (f : Family.t) (c : FamilyMember.t) (l : string) :
  let h := resolveHeir f (FamilyMember.withRelation c "child" l) in
  Heir.isHeir h = childrenActive f && isAlive c /\
  (childrenActive f && isAlive c = true -> Heir.legalShare h = childShare f).
Proof.
  unfold resolveHeir, childrenActive, childShare, isAlive.
  cbn [FamilyMember.relationIs FamilyMember.relation FamilyMember.withRelation
       FamilyMember.status String.eqb Ascii.eqb Bool.eqb andb orb].
  destruct (0 <? List.length (livingChildren f))%nat;
    destruct (status_eqb (FamilyMember.status c) ALIVE);
    destruct (hasFather f || hasMother f);
    destruct (0 <? List.length (livingSiblings f))%nat;
    destruct (hasSpouse f);
    cbn; split; intros; try discriminate; reflexivity.
Qed.

Lemma resolveHeir_sibling (f : Family.t) (s : FamilyMember.t) (l : string) :
  let h := resolveHeir f (FamilyMember.withRelation s "sibling" l) in
  Heir.isHeir h = siblingsActive f && isAlive s /\
  (siblingsActive f && isAlive s = true -> Heir.legalShare h = siblingShare f).
Proof.
  unfold resolveHeir, siblingsActive, childrenActive, siblingShare, isAlive.
  cbn [FamilyMember.relationIs FamilyMember.relation FamilyMember.withRelation
       FamilyMember.status String.eqb Ascii.eqb Bool.eqb andb orb].
  destruct (0 <? List.length (livingChildren f))%nat;
    destruct (status_eqb (FamilyMember.status s) ALIVE);
    destruct (hasFather f || hasMother f);
    destruct (0 <? List.length (livingSiblings f))%nat;
    destruct (hasSpouse f);
    cbn; split; intros; try discriminate; reflexivity.
Qed.

Lemma resolveHeir_parent (f : Family.t) (x : FamilyMember.t) (l : string) :
  let h := resolveHeir f (FamilyMember.withRelation x "parent" l) in
  Heir.isHeir h = parentsActive f && isAlive x /\
  (parentsActive f && isAlive x = true -> Heir.legalShare h = parentShare f).
Proof.
  unfold resolveHeir, parentsActive, childrenActive, parentShare, isAlive.
  cbn [FamilyMember.relationIs FamilyMember.relation FamilyMember.withRelation
       FamilyMember.status String.eqb Ascii.eqb Bool.eqb andb orb].
  destruct (0 <? List.length (livingChildren f))%nat;
    destruct (status_eqb (FamilyMember.status x) ALIVE);
    destruct (hasFather f || hasMother f);
    destruct (0 <? List.length (livingSiblings f))%nat;
    destruct (hasSpouse f);
    cbn; split; intros; try discriminate; reflexivity.
Qed.

Lemma resolveHeir_spouse (f : Family.t) (l : string) :
  let h := resolveHeir f (FamilyMember.withRelation (Family.spouse f) "spouse" l) in
  Heir.isHeir h = hasSpouse f /\
  (hasSpouse f = true -> Heir.legalShare h = spouseShare f).
Proof.
  unfold resolveHeir, spouseShare, childShare, childrenActive.
  cbn [FamilyMember.relationIs FamilyMember.relation FamilyMember.withRelation
       FamilyMember.status String.eqb Ascii.eqb Bool.eqb andb orb].
  destruct (0 <? List.length (livingChildren f))%nat;
    destruct (hasFather f || hasMother f);
    destruct (0 <? List.length (livingSiblings f))%nat;
    destruct (hasSpouse f);
    cbn; split; intros; try discriminate; reflexivity.
Qed.













(** *** Who is returned *)






(** ** Strings *)

Lemma endsWith_correct (s suffix : string) :
  endsWith s suffix = true <-> exists p, s = (p ++ suffix)%string.
Proof.
  split.
  - induction s as [|c s IH]; cbn [endsWith].
    + destruct (String.eqb "" suffix) eqn:E; [|discriminate].
      intros _. apply String.eqb_eq in E. exists "". exact E.
    + destruct (String.eqb (String c s) suffix) eqn:E.
      * intros _. apply String.eqb_eq in E. exists "". exact E.
      * intro H. destruct (IH H) as [p ->]. exists (String c p). reflexivity.
  - intros [p ->]. induction p as [|c p IH]; cbn [append].
    + destruct suffix; cbn [endsWith]; rewrite String.eqb_refl; reflexivity.
    + cbn [endsWith]. rewrite IH.
      destruct (String.eqb (String c (p ++ suffix)) suffix); reflexivity.
Qed.

Lemma prefix_app (sub q : string) : String.prefix sub (sub ++ q) = true.
Proof.
  induction sub as [|c sub IH]; cbn.
  - destruct q; reflexivity.
  - destruct (ascii_dec c c) as [_|N]; [exact IH | contradiction].
Qed.

Lemma includes_app (p sub q : string) : includes (p ++ sub ++ q) sub = true.
Proof.
  induction p as [|c p IH]; cbn [append].
  - destruct (sub ++ q)%string eqn:E; cbn [includes]; rewrite <- E, prefix_app; reflexivity.
  - cbn [includes]. rewrite IH.
    destruct (String.prefix sub (String c (p ++ sub ++ q))); reflexivity.
Qed.

Lemma prefix_split (sub s : string) :
  String.prefix sub s = true -> exists q, s = (sub ++ q)%string.
Proof.
  revert s. induction sub as [|c sub IH]; intros s H.
  - exists s. reflexivity.
  - destruct s as [|d s]; cbn in H; [discriminate H|].
    destruct (ascii_dec c d) as [<-|_]; [|discriminate H].
    destruct (IH s H) as [q ->]. exists q. reflexivity.
Qed.

Lemma includes_correct (s sub : string) :
  includes s sub = true <-> exists p q, s = (p ++ sub ++ q)%string.
Proof.
  split.
  - induction s as [|c s IH]; cbn [includes].
    + destruct (String.prefix sub "") eqn:E; [|discriminate].
      intros _. destruct (prefix_split _ _ E) as [q Hq]. exists "", q. exact Hq.
    + destruct (String.prefix sub (String c s)) eqn:E.
      * intros _. destruct (prefix_split _ _ E) as [q Hq]. exists "", q. exact Hq.
      * intro H. destruct (IH H) as [p [q ->]]. exists (String c p), q. reflexivity.
  - intros [p [q ->]]. apply includes_app.
Qed.

(** Appending a non-empty suffix changes a string. *)
Lemma append_suffix_neq (s suffix : string) :
  suffix <> "" -> (s ++ suffix)%string <> s.
Proof.
  intros Hne. induction s as [|c s IH]; cbn [append].
  - exact Hne.
  - intro H. injection H as H. exact (IH H).
Qed.

(** ** The asset ledger *)

Lemma targetHeir_found (f : Family.t) (h : Heir.t) :
  In h (heirs f) -> exists h', targetHeir f (Heir.id h) = Some h'.
Proof.
  intro Hin. unfold targetHeir.
  destruct (find (fun h0 => String.eqb (Heir.id h0) (Heir.id h)) (heirs f)) eqn:E.
  - eexists. reflexivity.
  - pose proof (find_none _ _ E h Hin) as Hn. cbn in Hn.
    rewrite String.eqb_refl in Hn. discriminate Hn.
Qed.


(** What [relocate] does to each record. *)
Lemma relocate_spec (dragged : Asset.t) (target : string) (l : list Asset.t) :
  Forall2 (fun a a' =>
             (Asset.id a = Asset.id dragged -> a' = Asset.withLocation a target) /\
             (Asset.id a <> Asset.id dragged -> a' = a))
          l (relocate dragged target l).
Proof.
  induction l as [|a l IH]; cbn [relocate map]; constructor; [|exact IH].
  destruct (String.eqb_spec (Asset.id a) (Asset.id dragged)); split; intro; congruence.
Qed.




(** C9: a drop on any target that ends with "_spouse" or contains "_child_"
    is accepted and the target is stored verbatim as the location, whatever
    the family: the part before the suffix need not be anybody's id. *)
Theorem drop_on_extended_pattern_accepted
    (st : AppState) (dragged : Asset.t) (target : string) :
  draggedAsset st = Some dragged ->
  (exists p, target = (p ++ "_spouse")%string) \/
  (exists p q, target = (p ++ "_child_" ++ q)%string) ->
  handleDrop target st
  = mkState (family st) (relocate dragged target (assets st)) None /\
  forall a, In a (assets st) -> Asset.id a = Asset.id dragged ->
    exists a', In a' (assets (handleDrop target st)) /\
               Asset.location a' = target /\ identityOf a' = identityOf a.
Proof.
  intros Hd Hpat.
  assert (Hext : isExtendedZone target = true).
  { unfold isExtendedZone. apply orb_true_iff.
    destruct Hpat as [H | H]; [left; apply endsWith_correct | right; apply includes_correct];
      exact H. }
  assert (E : handleDrop target st
              = mkState (family st) (relocate dragged target (assets st)) None).
  { unfold handleDrop, dropRejected. rewrite Hd, Hext.
    destruct (targetHeir (family st) target); [reflexivity|].
    rewrite andb_false_r. reflexivity. }
  split; [exact E|].
  intros a Ha Hid. exists (Asset.withLocation a target).
  split; [|split; reflexivity].
  rewrite E. cbn [assets]. unfold relocate.
  apply in_map_iff. exists a. split; [|exact Ha].
  rewrite Hid, String.eqb_refl. reflexivity.
Qed.

Lemma drop_on_extended_pattern_accepted_witness :
  (forall h, In h (heirs (family draggingCash)) -> Heir.id h <> "xyz") /\
  map Asset.location (assets (handleDrop "xyz_spouse" draggingCash))
  = ["xyz_spouse"; "pool"].
Proof.
  split.
  - intros h Hh. cbn in Hh. destruct Hh as [<- | [<- | [<- | []]]]; discriminate.
  - destruct (drop_on_extended_pattern_accepted draggingCash sampleCash "xyz_spouse")
      as [E _]; [reflexivity | left; exists "xyz"; reflexivity |].
    rewrite E. reflexivity.
Defined.

(** *** Conservation under relocation *)

(** Two records with the same identity differ by their location only. *)
Lemma identityOf_eq (a a' : Asset.t) :
  identityOf a' = identityOf a -> a' = Asset.withLocation a (Asset.location a').
Proof.
  destruct a, a'. unfold identityOf. cbn. intro H. injection H as -> -> -> ->.
  reflexivity.
Qed.

Lemma step_identity (st : AppState) (e : Event) :
  map identityOf (assets (step st e)) = map identityOf (assets st).
Proof.
  destruct e as [a | target | c]; cbn [step].
  - reflexivity.
  - unfold handleDrop. destruct (draggedAsset st) as [d|]; [|reflexivity].
    destruct (dropRejected (family st) target); [reflexivity|].
    cbn [assets]. unfold relocate. rewrite map_map. apply map_ext.
    intro a. destruct (String.eqb (Asset.id a) (Asset.id d)); reflexivity.
  - unfold handleResetAllocation. destruct c; [|reflexivity].
    cbn [assets]. rewrite map_map. apply map_ext. intro a. reflexivity.
Qed.

Lemma run_identity (es : list Event) (st : AppState) :
  map identityOf (assets (run es st)) = map identityOf (assets st).
Proof.
  unfold run. revert st. induction es as [|e es IH]; intro st; cbn [fold_left].
  - reflexivity.
  - rewrite IH. apply step_identity.
Qed.

Lemma sumAmounts_identity (l l' : list Asset.t) :
  map identityOf l = map identityOf l' -> sumAmounts l = sumAmounts l'.
Proof.
  unfold sumAmounts. generalize 0. revert l'.
  induction l as [|a l IH]; intros [|a' l'] acc H; cbn in H; try discriminate H.
  - reflexivity.
  - injection H as _ _ Ha _ Hl. cbn [fold_left]. rewrite Ha. apply IH, Hl.
Qed.

(** C6: after any sequence of drags, drops and resets, from any ledger, the
    records are the same in number and order, each with its id, type, amount
    and name; so the total of the amounts is unchanged, and every asset of
    the starting ledger is held at exactly one location. *)
Theorem relocation_conserves_assets (es : list Event) (st : AppState) :
  map identityOf (assets (run es st)) = map identityOf (assets st) /\
  totalEstate (run es st) = totalEstate st /\
  List.length (assets (run es st)) = List.length (assets st) /\
  (forall i a, nth_error (assets st) i = Some a ->
     exists l, nth_error (assets (run es st)) i = Some (Asset.withLocation a l) /\
       forall l', nth_error (assets (run es st)) i = Some (Asset.withLocation a l') ->
                  l' = l).
Proof.
  pose proof (run_identity es st) as Hid.
  split; [exact Hid|].
  split; [apply sumAmounts_identity, Hid|].
  split.
  - rewrite <- (length_map identityOf (assets (run es st))), Hid. apply length_map.
  - intros i a Ha.
    assert (Hi : nth_error (map identityOf (assets (run es st))) i = Some (identityOf a))
      by (rewrite Hid; apply map_nth_error, Ha).
    rewrite nth_error_map in Hi.
    destruct (nth_error (assets (run es st)) i) as [a'|] eqn:E; [|discriminate Hi].
    cbn [option_map] in Hi. assert (Hi' : identityOf a' = identityOf a) by congruence.
    clear Hi. rename Hi' into Hi.
    exists (Asset.location a'). split.
    + f_equal. apply identityOf_eq, Hi.
    + intros l' H'. injection H' as H'.
      rewrite H'. reflexivity.
Qed.

Lemma relocation_conserves_assets_witness :
  totalEstate
    (run [Drop "father"; DragStart sampleHouse; Drop "a7f2m1c_child_0";
          ResetAllocation false; DragStart sampleCash; Drop "pool"] draggingCash)
  = totalEstate draggingCash /\
  exists l,
    nth_error
      (assets
         (run [Drop "father"; DragStart sampleHouse; Drop "a7f2m1c_child_0";
               ResetAllocation false; DragStart sampleCash; Drop "pool"] draggingCash))
      1 = Some (Asset.withLocation sampleHouse l).
Proof.
  destruct (relocation_conserves_assets
              [Drop "father"; DragStart sampleHouse; Drop "a7f2m1c_child_0";
               ResetAllocation false; DragStart sampleCash; Drop "pool"] draggingCash)
    as [_ [Ht [_ Hn]]].
  split; [exact Ht|].
  destruct (Hn 1%nat sampleHouse eq_refl) as [l [Hl _]].
  exists l. exact Hl.
Defined.

(** *** Removing a child or a sibling *)

Lemma releaseTo_pool_spec (id : string) (l : list Asset.t) :
  Forall2 (fun a a' =>
             (Asset.location a = id -> a' = Asset.withLocation a "pool") /\
             (Asset.location a <> id -> a' = a) /\
             (forall suffix, suffix <> "" ->
                Asset.location a = (id ++ suffix)%string -> a' = a) /\
             identityOf a' = identityOf a)
          l (releaseTo_pool id l).
Proof.
  induction l as [|a l IH]; cbn [releaseTo_pool map]; constructor; [|exact IH].
  destruct (String.eqb_spec (Asset.location a) id) as [E|N].
  - repeat split; try congruence.
    intros suffix Hs Hl. exfalso.
    apply (append_suffix_neq id suffix Hs). congruence.
  - repeat split; try congruence.
Qed.

(** C10: [removeChild id] and [removeSibling id] send to the pool exactly the
    assets located at [id] and leave every other record as it is; an asset in
    one of the removed person's extended slots ([id ++ "_spouse"],
    [id ++ "_child_" ++ k], any [id ++ suffix] with a non-empty suffix) keeps
    its location.  No id, type, amount or name changes. *)
Theorem removeChild_releases_only_own_assets (id : string) (st : AppState) :
  Forall2 (fun a a' =>
             (Asset.location a = id -> a' = Asset.withLocation a "pool") /\
             (Asset.location a <> id -> a' = a) /\
             (forall suffix, suffix <> "" ->
                Asset.location a = (id ++ suffix)%string -> a' = a) /\
             identityOf a' = identityOf a)
          (assets st) (assets (removeChild id st)) /\
  assets (removeSibling id st) = assets (removeChild id st) /\
  Family.children (family (removeChild id st))
  = filter (fun c => negb (String.eqb (FamilyMember.id c) id))
           (Family.children (family st)) /\
  Family.siblings (family (removeSibling id st))
  = filter (fun s => negb (String.eqb (FamilyMember.id s) id))
           (Family.siblings (family st)).
Proof.
  split; [apply releaseTo_pool_spec|].
  repeat split.
Qed.

Lemma removeChild_releases_only_own_assets_witness :
  map Asset.location (assets (removeChild "a7f2m1c" allocatedAroundChild))
  = ["pool"; "a7f2m1c_spouse"; "a7f2m1c_child_0"; "mother"] /\
  Forall2 (fun a a' => identityOf a' = identityOf a)
    (assets allocatedAroundChild) (assets (removeChild "a7f2m1c" allocatedAroundChild)).
Proof.
  split; [reflexivity|].
  destruct (removeChild_releases_only_own_assets "a7f2m1c" allocatedAroundChild)
    as [H _].
  eapply Forall2_impl; [|exact H].
  intros a a' [_ [_ [_ Hid]]]. exact Hid.
Defined.

(** ** The reserved portion *)

Lemma filter_filter_imp (A : Type) (P Q : A -> bool) (l : list A) :
  (forall x, P x = true -> Q x = true) -> filter P (filter Q l) = filter P l.
Proof.
  intro H. induction l as [|x l IH]; cbn [filter]; [reflexivity|].
  destruct (Q x) eqn:EQ; cbn [filter].
  - rewrite IH. reflexivity.
  - destruct (P x) eqn:EP; [|exact IH].
    apply H in EP. congruence.
Qed.

(** The card counts what is at the heir's own id, whichever [assets] prop it got. *)
Lemma cardAssets_own (heir : Heir.t) (l : list Asset.t) :
  filter (fun a => String.eqb (Asset.location a) (Heir.id heir)) (cardAssets heir l)
  = filter (fun a => String.eqb (Asset.location a) (Heir.id heir)) l.
Proof.
  unfold cardAssets. destruct (Heir.relationIs heir "child");
    apply filter_filter_imp; intros a Ha; rewrite Ha; reflexivity.
Qed.

Lemma sumAmounts_received (id : string) (l : list Asset.t) :
  sumAmounts (filter (fun a => String.eqb (Asset.location a) id) l) == receivedAt id l.
Proof.
  unfold sumAmounts. induction l as [|a l IH]; cbn [filter receivedAt].
  - reflexivity.
  - destruct (String.eqb (Asset.location a) id); cbn [fold_left].
    + rewrite fold_left_Qplus_shift, IH. lra.
    + rewrite IH. lra.
Qed.

Lemma hasAllocationStarted_iff (l : list Asset.t) :
  hasAllocationStarted l = true <->
  exists a, In a l /\ Asset.location a <> "pool".
Proof.
  unfold hasAllocationStarted. rewrite existsb_exists.
  split; intros [a [Ha Hl]]; exists a; split; try exact Ha.
  - apply negb_true_iff, String.eqb_neq in Hl. exact Hl.
  - apply negb_true_iff, String.eqb_neq. exact Hl.
Qed.

(** C7: a card is flagged under-reserved exactly when the record is a heir,
    some asset of the whole ledger is outside the pool, and the amounts
    located at exactly the heir's id (extended slots excluded) total strictly
    less than [legalShare / 2 * afterTaxEstate]; while every asset is in the
    pool nobody is flagged. *)
Theorem under_reserved_iff (st : AppState) (heir : Heir.t) :
  (underReserved st heir = true <->
   Heir.isHeir heir = true /\
   (exists a, In a (assets st) /\ Asset.location a <> "pool") /\
   receivedAt (Heir.id heir) (assets st)
   < Heir.legalShare heir / 2 * afterTaxEstate st) /\
  ((forall a, In a (assets st) -> Asset.location a = "pool") ->
   underReserved st heir = false).
Proof.
  assert (Hiff : underReserved st heir = true <->
                 Heir.isHeir heir = true /\
                 (exists a, In a (assets st) /\ Asset.location a <> "pool") /\
                 receivedAt (Heir.id heir) (assets st)
                 < Heir.legalShare heir / 2 * afterTaxEstate st).
  { unfold underReserved, isUnderReserved.
    rewrite !andb_true_iff, Qlt_bool_iff, hasAllocationStarted_iff.
    rewrite cardAssets_own, sumAmounts_received.
    assert (E : afterTaxEstate st * Heir.legalShare heir / 2
                == Heir.legalShare heir / 2 * afterTaxEstate st) by field.
    rewrite E. tauto. }
  split; [exact Hiff|].
  intro Hpool. destruct (underReserved st heir) eqn:E; [|reflexivity].
  destruct (proj1 Hiff eq_refl) as [_ [[a [Ha Hn]] _]].
  exfalso. apply Hn, Hpool, Ha.
Qed.

Lemma under_reserved_iff_witness :
  underReserved spouseHoldsCash (resolveHeir familySpouseTwoChildren sampleChild) = true /\
  underReserved (mkState familySpouseTwoChildren ledger50M None)
    (resolveHeir familySpouseTwoChildren sampleChild) = false.
Proof.
  split.
  - apply (proj1 (under_reserved_iff spouseHoldsCash
                    (resolveHeir familySpouseTwoChildren sampleChild))).
    split; [reflexivity|]. split.
    + exists (Asset.withLocation sampleCash "spouse").
      split; [left; reflexivity | discriminate].
    + reflexivity.
  - apply (proj2 (under_reserved_iff (mkState familySpouseTwoChildren ledger50M None)
                    (resolveHeir familySpouseTwoChildren sampleChild))).
    intros a [<- | [<- | []]]; reflexivity.
Defined.

(** ** binary64 cross-checks

    On doubles the scenario of C5 gives the same tax, the formulas of
    adjacent brackets agree at both boundaries as in C4, and up to a thousand
    equal shares add up to 1 within 1e-9 as in C2. *)

Lemma binary64_tax_scenario :
  calculateInheritanceTax64 28640000 = (2864000, 0.10)%float.
Proof. vm_compute. reflexivity. Qed.

Lemma binary64_tax_boundaries :
  bracketFormula64 (bracketAt64 0) 56210000 = bracketFormula64 (bracketAt64 1) 56210000 /\
  bracketFormula64 (bracketAt64 1) 112420000 = bracketFormula64 (bracketAt64 2) 112420000 /\
  fst (calculateInheritanceTax64 56210000) = 5621000%float /\
  fst (calculateInheritanceTax64 112420000) = 14052500%float.
Proof. vm_compute. repeat split. Qed.

Lemma binary64_equal_shares :
  forallb equalSharesWithinTolerance64 (seq 1 1000) = true.
Proof. vm_compute. reflexivity. Qed.

(** * Further properties of the code *)

(** ** The tax function *)

Lemma calculateInheritanceTax_compat (x y : number) :
  x == y -> taxOf x == taxOf y /\ rateOf x = rateOf y.
Proof.
  intro E.
  destruct (calculateInheritanceTax_spec x)
    as [[Hx Ex] | [[Hx0 [Hx1 [Ex Rx]]] | [[Hx0 [Hx1 [Ex Rx]]] | [Hx0 [Ex Rx]]]]];
  destruct (calculateInheritanceTax_spec y)
    as [[Hy Ey] | [[Hy0 [Hy1 [Ey Ry]]] | [[Hy0 [Hy1 [Ey Ry]]] | [Hy0 [Ey Ry]]]]];
  try (exfalso; lra).
  - unfold taxOf, rateOf. rewrite Ex, Ey. split; reflexivity.
  - rewrite Ex, Ey, Rx, Ry, !bracketFormula_0, E. split; reflexivity.
  - rewrite Ex, Ey, Rx, Ry, !bracketFormula_1, E. split; reflexivity.
  - rewrite Ex, Ey, Rx, Ry, !bracketFormula_2, E. split; reflexivity.
Qed.



(** X2: the marginal rate is 0 exactly for a taxable amount that is not
    positive and otherwise 10%, 15% or 20%, it never decreases when the
    taxable amount grows, and for a positive taxable amount the clamp at zero
    is idle: the tax is the bracket formula at that rate and is positive. *)
Theorem marginal_rate_steps (x y : number) :
  (rateOf x = 0 /\ x <= 0 \/
   0 < x /\ (rateOf x = 0.10 \/ rateOf x = 0.15 \/ rateOf x = 0.20)) /\
  (x <= y -> rateOf x <= rateOf y) /\
  (0 < x -> 0 < taxOf x /\ taxOf x <= x * rateOf x /\
            exists b, In b ESTATE_TAX_BRACKETS /\ Bracket.rate b = rateOf x /\
                      taxOf x == bracketFormula b x).
Proof.
  destruct (calculateInheritanceTax_spec x)
    as [[Hx Ex] | [[Hx0 [Hx1 [Ex Rx]]] | [[Hx0 [Hx1 [Ex Rx]]] | [Hx0 [Ex Rx]]]]].
  - assert (Rx : rateOf x = 0) by (unfold rateOf; rewrite Ex; reflexivity).
    split; [left; split; assumption|]. split.
    + intros _. rewrite Rx.
      destruct (calculateInheritanceTax_spec y)
        as [[_ Ey] | [[_ [_ [_ Ry]]] | [[_ [_ [_ Ry]]] | [_ [_ Ry]]]]];
        [unfold rateOf; rewrite Ey | rewrite Ry ..]; unfold Qle; simpl; lia.
    + intro. exfalso. lra.
  - split; [right; split; [assumption | left; exact Rx]|]. split.
    + intro Hxy. rewrite Rx.
      destruct (calculateInheritanceTax_spec y)
        as [[Hy _] | [[_ [_ [_ Ry]]] | [[_ [_ [_ Ry]]] | [_ [_ Ry]]]]];
        [exfalso; lra | rewrite Ry ..]; unfold Qle; simpl; lia.
    + intros _.
      split; [rewrite Ex, bracketFormula_0; lra|].
      split; [rewrite Rx, Ex, bracketFormula_0; lra|].
      exists (bracketAt 0). split; [left; reflexivity|].
      split; [rewrite Rx; reflexivity | exact Ex].
  - split; [right; split; [lra | right; left; exact Rx]|]. split.
    + intro Hxy. rewrite Rx.
      destruct (calculateInheritanceTax_spec y)
        as [[Hy _] | [[_ [Hy _]] | [[_ [_ [_ Ry]]] | [_ [_ Ry]]]]];
        [exfalso; lra | exfalso; lra | rewrite Ry ..]; unfold Qle; simpl; lia.
    + intros _.
      split; [rewrite Ex, bracketFormula_1; lra|].
      split; [rewrite Rx, Ex, bracketFormula_1; lra|].
      exists (bracketAt 1). split; [right; left; reflexivity|].
      split; [rewrite Rx; reflexivity | exact Ex].
  - split; [right; split; [lra | right; right; exact Rx]|]. split.
    + intro Hxy. rewrite Rx.
      destruct (calculateInheritanceTax_spec y)
        as [[Hy _] | [[_ [Hy _]] | [[_ [Hy _]] | [_ [_ Ry]]]]];
        [exfalso; lra | exfalso; lra | exfalso; lra | rewrite Ry];
        unfold Qle; simpl; lia.
    + intros _.
      split; [rewrite Ex, bracketFormula_2; lra|].
      split; [rewrite Rx, Ex, bracketFormula_2; lra|].
      exists (bracketAt 2). split; [right; right; left; reflexivity|].
      split; [rewrite Rx; reflexivity | exact Ex].
Qed.

Lemma marginal_rate_steps_witness :
  rateOf 56210000 <= rateOf 56210001 /\ 0 < taxOf 1.
Proof.
  destruct (marginal_rate_steps 56210000 56210001) as [_ [Hmono _]].
  destruct (marginal_rate_steps 1 1) as [_ [_ Hpos]].
  split.
  - apply Hmono. unfold Qle; simpl; lia.
  - apply Hpos. reflexivity.
Defined.

(** X3: whatever the taxable amount, the bracket table highlights exactly one
    row; for a positive taxable amount it is the row whose rate
    [calculateInheritanceTax] applies, and for a taxable amount of zero or
    less it is the first row. *)
Theorem one_row_highlighted (x : number) :
  exists i, highlightedRows x = [i] /\
    (0 < x -> Bracket.rate (bracketAt i) = rateOf x) /\
    (x <= 0 -> i = 0%nat).
Proof.
  unfold highlightedRows, rowHighlighted, withinLimit, aboveLimit, Qlt_bool.
  cbn [List.length ESTATE_TAX_BRACKETS seq filter bracketAt nth Bracket.limit
       Nat.eqb Nat.sub orb andb negb].
  destruct (calculateInheritanceTax_spec x)
    as [[Hx _] | [[Hx0 [Hx1 [_ Rx]]] | [[Hx0 [Hx1 [_ Rx]]] | [Hx0 [_ Rx]]]]].
  - exists 0%nat.
    assert (E1 : Qle_bool x 56210000 = true) by (apply Qle_bool_iff; lra).
    assert (E2 : Qle_bool x 112420000 = true) by (apply Qle_bool_iff; lra).
    rewrite E1, E2. cbn. split; [reflexivity|]. split; [intro; exfalso; lra | reflexivity].
  - exists 0%nat.
    assert (E1 : Qle_bool x 56210000 = true) by (apply Qle_bool_iff; lra).
    assert (E2 : Qle_bool x 112420000 = true) by (apply Qle_bool_iff; lra).
    rewrite E1, E2. cbn. split; [reflexivity|].
    split; [intros _; rewrite Rx; reflexivity | reflexivity].
  - exists 1%nat.
    assert (E1 : Qle_bool x 56210000 = false) by (apply Qle_bool_false_iff; lra).
    assert (E2 : Qle_bool x 112420000 = true) by (apply Qle_bool_iff; lra).
    rewrite E1, E2. cbn. split; [reflexivity|].
    split; [intros _; rewrite Rx; reflexivity | intro; exfalso; lra].
  - exists 2%nat.
    assert (E1 : Qle_bool x 56210000 = false) by (apply Qle_bool_false_iff; lra).
    assert (E2 : Qle_bool x 112420000 = false) by (apply Qle_bool_false_iff; lra).
    rewrite E1, E2. cbn. split; [reflexivity|].
    split; [intros _; rewrite Rx; reflexivity | intro; exfalso; lra].
Qed.

Lemma one_row_highlighted_witness :
  exists i, highlightedRows 60000000 = [i] /\ Bracket.rate (bracketAt i) = rateOf 60000000.
Proof.
  destruct (one_row_highlighted 60000000) as [i [Hi [Hr _]]].
  exists i. split; [exact Hi|]. apply Hr. reflexivity.
Defined.

(** ** The tax panel *)

Lemma panelDeduction_formula (p : Panel.t) :
  panelDeduction p ==
    ESTATE_TAX_EXEMPTION + DEDUCTION_FUNERAL
    + (if Panel.localSpouse p then DEDUCTION_SPOUSE else 0)
    + Q_of_nat (Panel.localParents p) * DEDUCTION_PARENT
    + Q_of_nat (Panel.localChildren p) * DEDUCTION_CHILD
    + Qmax 0 (activeOther p).
Proof.
  unfold panelDeduction, panelTotalDeduction, panelDeductions.
  assert (Hz : forall n, (0 <? n)%nat = false -> Q_of_nat n == 0).
  { intros n H. apply Nat.ltb_ge in H. assert (n = 0%nat) as -> by lia. reflexivity. }
  destruct (Qlt_bool 0 (activeOther p)) eqn:Eo.
  - apply Qlt_bool_iff in Eo. rewrite (Q.max_r 0 (activeOther p)) by lra.
    destruct (Panel.localSpouse p);
      destruct (0 <? Panel.localParents p)%nat eqn:Ep;
      destruct (0 <? Panel.localChildren p)%nat eqn:Ec;
      cbn [app fold_left];
      try rewrite (Hz _ Ep); try rewrite (Hz _ Ec); lra.
  - unfold Qlt_bool in Eo. apply negb_false_iff, Qle_bool_iff in Eo.
    rewrite (Q.max_l 0 (activeOther p)) by lra.
    destruct (Panel.localSpouse p);
      destruct (0 <? Panel.localParents p)%nat eqn:Ep;
      destruct (0 <? Panel.localChildren p)%nat eqn:Ec;
      cbn [app fold_left];
      try rewrite (Hz _ Ep); try rewrite (Hz _ Ec); lra.
Qed.

(** X4: the panel's total deduction is the exemption, the funeral deduction,
    the spouse deduction when ticked, 1,380,000 per parent, 560,000 per child
    and the manual amount -- a manual amount that is zero, negative or not a
    number adds nothing. *)
Theorem panel_deduction_total (p : Panel.t) :
  panelDeduction p ==
    13330000 + 1380000
    + (if Panel.localSpouse p then 5530000 else 0)
    + Q_of_nat (Panel.localParents p) * 1380000
    + Q_of_nat (Panel.localChildren p) * 560000
    + Qmax 0 (activeOther p) /\
  (activeOther p <= 0 ->
   panelDeduction p ==
     panelDeduction (Panel.mk (Panel.localSpouse p) (Panel.localChildren p)
                       (Panel.localParents p) None)).
Proof.
  split.
  - rewrite panelDeduction_formula. reflexivity.
  - intro Ho. rewrite !panelDeduction_formula. cbn [Panel.localSpouse Panel.localChildren
      Panel.localParents]. unfold activeOther at 2. cbn [Panel.localOther].
    rewrite (Q.max_l 0 (activeOther p)) by exact Ho.
    rewrite (Q.max_l 0 (0 * 10000)) by lra. reflexivity.
Qed.

Lemma panel_deduction_total_witness :
  panelDeduction (Panel.mk true 2 0 (Some (-5))) == 21360000.
Proof.
  destruct (panel_deduction_total (Panel.mk true 2 0 (Some (-5)))) as [_ H].
  rewrite H; [reflexivity|]. unfold activeOther, Qle; simpl; lia.
Defined.

(** X5: as long as the panel's counters are as mounted, the panel computes
    the deduction, the tax and the rate of the main screen: the tax shown in
    the summary is the tax the cards use for the reserved amounts. *)
Theorem panel_agrees_with_main_screen_at_mount (st : AppState) :
  panelDeduction (panelMount (family st)) == autoDeductionAmount (family st) /\
  TaxResult.tax (panelTax (totalEstate st) (panelMount (family st))) == tax st /\
  TaxResult.rate (panelTax (totalEstate st) (panelMount (family st)))
  = rateOf (taxableAmount st).
Proof.
  assert (Hd : panelDeduction (panelMount (family st))
               == autoDeductionAmount (family st)).
  { rewrite panelDeduction_formula, autoDeductionAmount_counts.
    unfold panelMount, activeOther, livingChildren.
    cbn [Panel.localSpouse Panel.localChildren Panel.localParents Panel.localOther].
    rewrite (Q.max_l 0 (0 * 10000)) by lra. lra. }
  split; [exact Hd|].
  assert (Hx : panelTaxable (totalEstate st) (panelMount (family st))
               == taxableAmount st).
  { unfold panelTaxable, taxableAmount. rewrite Hd. reflexivity. }
  destruct (calculateInheritanceTax_compat _ _ Hx) as [Ht Hr].
  split; [exact Ht | exact Hr].
Qed.

Lemma panelStep_parents_bound (p : Panel.t) (a : PanelAction) :
  (Panel.localParents p <= 2)%nat -> (Panel.localParents (panelStep p a) <= 2)%nat.
Proof.
  destruct a; cbn [panelStep Panel.localParents]; lia.
Qed.

(** X6: however the panel's buttons are pressed after it is mounted, its
    parent counter stays between 0 and 2, so the parent deduction never
    exceeds 2,760,000. *)
Theorem panel_parents_at_most_two (initialFamily : Family.t) (actions : list PanelAction) :
  (Panel.localParents (panelRun actions (panelMount initialFamily)) <= 2)%nat /\
  Q_of_nat (Panel.localParents (panelRun actions (panelMount initialFamily)))
  * DEDUCTION_PARENT <= 2760000.
Proof.
  assert (H : (Panel.localParents (panelRun actions (panelMount initialFamily)) <= 2)%nat).
  { unfold panelRun.
    assert (H0 : (Panel.localParents (panelMount initialFamily) <= 2)%nat).
    { cbn [panelMount Panel.localParents].
      destruct (isAlive (Family.father initialFamily)),
               (isAlive (Family.mother initialFamily)); cbn; lia. }
    revert H0. generalize (panelMount initialFamily).
    induction actions as [|a actions IH]; intros p Hp; cbn [fold_left].
    - exact Hp.
    - apply IH, panelStep_parents_bound, Hp. }
  split; [exact H|].
  assert (Hq : Q_of_nat (Panel.localParents (panelRun actions (panelMount initialFamily)))
               <= 2).
  { unfold Q_of_nat. change 2 with (inject_Z 2). rewrite <- Zle_Qle. lia. }
  unfold DEDUCTION_PARENT. lra.
Qed.

(** X7: a larger deduction never raises the panel's tax; ticking the spouse
    and pressing "+" on children never lower the deduction, nor does "+" on
    parents while the counter is within its range of 0 to 2, so none of them
    raises the tax. *)
Theorem panel_deductions_lower_tax (activeAssets : number) (p p' : Panel.t) :
  (panelDeduction p <= panelDeduction p' ->
   TaxResult.tax (panelTax activeAssets p') <= TaxResult.tax (panelTax activeAssets p)) /\
  panelDeduction p <= panelDeduction (panelStep p (SetLocalSpouse true)) /\
  panelDeduction p <= panelDeduction (panelStep p ChildrenPlus) /\
  ((Panel.localParents p <= 2)%nat ->
   panelDeduction p <= panelDeduction (panelStep p ParentsPlus)).
Proof.
  split; [|split; [|split]].
  - intro Hd. unfold panelTax. fold (taxOf (panelTaxable activeAssets p')).
    fold (taxOf (panelTaxable activeAssets p)).
    apply taxOf_monotone. unfold panelTaxable.
    apply Q.max_le_compat_l. lra.
  - rewrite !panelDeduction_formula.
    cbn [panelStep Panel.localSpouse Panel.localChildren Panel.localParents].
    unfold activeOther. cbn [Panel.localOther].
    destruct (Panel.localSpouse p); unfold DEDUCTION_SPOUSE; lra.
  - rewrite !panelDeduction_formula.
    cbn [panelStep Panel.localSpouse Panel.localChildren Panel.localParents].
    unfold activeOther. cbn [Panel.localOther].
    rewrite Q_of_nat_plus. change (Q_of_nat 1) with 1. unfold DEDUCTION_CHILD. lra.
  - intro Hp. rewrite !panelDeduction_formula.
    cbn [panelStep Panel.localSpouse Panel.localChildren Panel.localParents].
    unfold activeOther. cbn [Panel.localOther].
    assert (Hm : Q_of_nat (Panel.localParents p)
                 <= Q_of_nat (Nat.min 2 (Panel.localParents p + 1))).
    { unfold Q_of_nat. rewrite <- Zle_Qle. lia. }
    unfold DEDUCTION_PARENT. lra.
Qed.

Lemma panel_deductions_lower_tax_witness :
  TaxResult.tax (panelTax 50000000 (panelStep (Panel.mk true 2 0 None) ParentsPlus))
  <= TaxResult.tax (panelTax 50000000 (Panel.mk true 2 0 None)).
Proof.
  destruct (panel_deductions_lower_tax 50000000 (Panel.mk true 2 0 None)
              (panelStep (Panel.mk true 2 0 None) ParentsPlus)) as [Hmono [_ [_ Hpar]]].
  apply Hmono, Hpar. cbn. lia.
Defined.

(** ** The main screen's tax *)

Lemma sumAmounts_nonneg (l : list Asset.t) :
  (forall a, In a l -> 0 <= Asset.amount a) -> 0 <= sumAmounts l.
Proof.
  unfold sumAmounts. induction l as [|a l IH]; intro H; cbn [fold_left].
  - lra.
  - rewrite fold_left_Qplus_shift.
    assert (0 <= Asset.amount a) by (apply H; left; reflexivity).
    assert (0 <= fold_left (fun s x => s + Asset.amount x) l 0)
      by (apply IH; intros x Hx; apply H; right; exact Hx).
    lra.
Qed.

Lemma autoDeductionAmount_min (f : Family.t) : 14710000 <= autoDeductionAmount f.
Proof.
  rewrite autoDeductionAmount_counts.
  assert (Hn : forall n, 0 <= Q_of_nat n)
    by (intro n; unfold Q_of_nat; change 0 with (inject_Z 0); rewrite <- Zle_Qle; lia).
  pose proof (Hn ((if isAlive (Family.father f) then 1 else 0)
                 + (if isAlive (Family.mother f) then 1 else 0))%nat).
  pose proof (Hn (List.length (livingChildren f))).
  unfold ESTATE_TAX_EXEMPTION, DEDUCTION_FUNERAL, DEDUCTION_SPOUSE, DEDUCTION_PARENT,
    DEDUCTION_CHILD.
  destruct (isAlive (Family.spouse f)); nra.
Qed.

(** X8: while no amount is negative, the tax of the main screen is between 0
    and 20% of the estate, so the after-tax estate lies between 80% of the
    estate and the estate; an estate that does not exceed the deductions
    (at least 14,710,000) pays no tax. *)
Theorem after_tax_estate_bounds (st : AppState) :
  (forall a, In a (assets st) -> 0 <= Asset.amount a) ->
  0 <= tax st /\ tax st <= 0.20 * totalEstate st /\
  0.80 * totalEstate st <= afterTaxEstate st /\ afterTaxEstate st <= totalEstate st /\
  (totalEstate st <= autoDeductionAmount (family st) ->
   tax st == 0 /\ afterTaxEstate st == totalEstate st) /\
  (totalEstate st <= 14710000 -> tax st == 0).
Proof.
  intro Hpos.
  pose proof (sumAmounts_nonneg _ Hpos) as Ht. fold (totalEstate st) in Ht.
  pose proof (autoDeductionAmount_min (family st)) as Hd.
  unfold afterTaxEstate, tax. fold (taxOf (taxableAmount st)).
  assert (Hx : 0 <= taxableAmount st /\ taxableAmount st <= totalEstate st).
  { unfold taxableAmount. split; [apply Q.le_max_l|].
    apply Q.max_lub; lra. }
  assert (Hz : totalEstate st <= autoDeductionAmount (family st) ->
               taxableAmount st == 0).
  { intro H. unfold taxableAmount. apply Q.max_l. lra. }
  destruct (taxOf_cases (taxableAmount st))
    as [[? Ex] | [[? [? Ex]] | [[? [? Ex]] | [? Ex]]]]; rewrite Ex;
    (split; [lra|]); (split; [lra|]); (split; [lra|]); (split; [lra|]);
    (split; [intro Hle; specialize (Hz Hle); split; lra|]);
    intro Hle;
    assert (Hle' : totalEstate st <= autoDeductionAmount (family st)) by lra;
    specialize (Hz Hle'); lra.
Qed.

Lemma after_tax_estate_bounds_witness :
  0.80 * totalEstate spouseHoldsCash <= afterTaxEstate spouseHoldsCash.
Proof.
  destruct (after_tax_estate_bounds spouseHoldsCash) as [_ [_ [H _]]]; [|exact H].
  intros a [<- | [<- | []]]; unfold Qle; simpl; lia.
Defined.

(** ** Who inherits *)

Lemma filter_isAlive_nonempty (l : list FamilyMember.t) (c : FamilyMember.t) :
  In c l -> isAlive c = true -> (0 <? List.length (filter isAlive l))%nat = true.
Proof.
  intros Hin Ha. apply Nat.ltb_lt.
  assert (Hf : In c (filter isAlive l)) by (apply filter_In; auto).
  destruct (filter isAlive l); [contradiction | cbn; lia].
Qed.


(** Whether a candidate becomes a heir, by relation. *)
Lemma resolveHeir_isHeir (f : Family.t) (p : FamilyMember.t) :
  In p (allCandidates f) ->
  Heir.isHeir (resolveHeir f p) =
    isAlive p
    && (FamilyMember.relationIs p "spouse"
        || FamilyMember.relationIs p "child"
        || FamilyMember.relationIs p "parent" && negb (childrenActive f)
        || FamilyMember.relationIs p "sibling" && negb (childrenActive f)
           && negb (hasFather f || hasMother f)).
Proof.
  intro Hp.
  destruct (allCandidates_inv f p Hp)
    as [[-> _] | [[-> _] | [[-> _] | [[c [Hc ->]] | [s [Hs ->]]]]]].
  - rewrite (proj1 (resolveHeir_spouse f _)).
    unfold hasSpouse, isAlive, FamilyMember.relationIs. cbn.
    destruct (status_eqb (FamilyMember.status (Family.spouse f)) ALIVE); reflexivity.
  - rewrite (proj1 (resolveHeir_parent f _ _)).
    unfold parentsActive, hasFather, isAlive, FamilyMember.relationIs.
    generalize (childrenActive f). intro ca. cbn.
    destruct (status_eqb (FamilyMember.status (Family.father f)) ALIVE),
      ca, (hasMother f); reflexivity.
  - rewrite (proj1 (resolveHeir_parent f _ _)).
    unfold parentsActive, hasMother, isAlive, FamilyMember.relationIs.
    generalize (childrenActive f). intro ca. cbn.
    destruct (status_eqb (FamilyMember.status (Family.mother f)) ALIVE),
      ca, (hasFather f); reflexivity.
  - rewrite (proj1 (resolveHeir_child f _ _)).
    assert (Ew : isAlive (FamilyMember.withRelation c "child" "子女") = isAlive c)
      by reflexivity.
    rewrite Ew. destruct (isAlive c) eqn:Ea; [|apply andb_false_r].
    unfold childrenActive, livingChildren.
    rewrite (filter_isAlive_nonempty _ c Hc Ea). reflexivity.
  - rewrite (proj1 (resolveHeir_sibling f _ _)).
    assert (Ew : isAlive (FamilyMember.withRelation s "sibling" "兄弟姊妹") = isAlive s)
      by reflexivity.
    rewrite Ew. destruct (isAlive s) eqn:Ea; [|apply andb_false_r].
    unfold siblingsActive, livingSiblings.
    rewrite (filter_isAlive_nonempty _ s Hs Ea).
    generalize (childrenActive f). intro ca.
    destruct ca, (hasFather f || hasMother f); reflexivity.
Qed.





Lemma Q_of_nat_ge_1 (n : nat) : (0 < n)%nat -> 1 <= Q_of_nat n.
Proof.
  intro H. unfold Q_of_nat. change 1 with (inject_Z 1). rewrite <- Zle_Qle. lia.
Qed.

Lemma unit_fraction_bounds (q : Q) :
  1 <= q -> 0 < 1 / q /\ 1 / q <= 1 /\ 0 < 0.5 / q /\ 0.5 / q <= 1.
Proof.
  intro H.
  assert (Hi : 0 < / q) by (apply Qinv_lt_0_compat; lra).
  assert (Hq : q * / q == 1) by (apply Qmult_inv_r; lra).
  unfold Qdiv. repeat split; nra.
Qed.

(** X11: every returned record has a share between 0 and 1, and the share of
    a heir is positive: no division by a zero count ever happens. *)
Theorem legal_share_between_0_and_1 (f : Family.t) (p : FamilyMember.t) :
  0 <= Heir.legalShare (resolveHeir f p) /\
  Heir.legalShare (resolveHeir f p) <= 1 /\
  (Heir.isHeir (resolveHeir f p) = true -> 0 < Heir.legalShare (resolveHeir f p)).
Proof.
  unfold resolveHeir.
  destruct (0 <? List.length (livingChildren f))%nat eqn:Ek.
  - apply Nat.ltb_lt in Ek.
    assert (Hn : 1 <= Q_of_nat (List.length (livingChildren f)
                                + (if hasSpouse f then 1 else 0)))
      by (apply Q_of_nat_ge_1; lia).
    destruct (unit_fraction_bounds _ Hn) as [H1 [H2 _]].
    match goal with |- context [if ?b then _ else _] => destruct b end;
      cbn [Heir.legalShare Heir.isHeir];
      (split; [lra|]); (split; [lra|]); intro; try discriminate; lra.
  - destruct (hasFather f || hasMother f) eqn:Ep.
    + assert (Hn : 1 <= Q_of_nat (parentCount f)).
      { apply Q_of_nat_ge_1. unfold parentCount.
        destruct (hasFather f), (hasMother f); cbn; try lia; discriminate Ep. }
      destruct (unit_fraction_bounds _ Hn) as [H1 [H2 [H3 H4]]].
      generalize (hasSpouse f). intro sp.
      destruct (_ && isAlive p || _);
        [destruct (FamilyMember.relationIs p "spouse"); [|destruct sp]|];
        cbn [Heir.legalShare Heir.isHeir];
        (split; [lra|]); (split; [lra|]); intro; try discriminate; lra.
    + destruct (0 <? List.length (livingSiblings f))%nat eqn:Es.
      * apply Nat.ltb_lt, Q_of_nat_ge_1 in Es.
        destruct (unit_fraction_bounds _ Es) as [H1 [H2 [H3 H4]]].
        generalize (hasSpouse f). intro sp.
        destruct (_ && isAlive p || _);
          [destruct (FamilyMember.relationIs p "spouse"); [|destruct sp]|];
          cbn [Heir.legalShare Heir.isHeir];
          (split; [lra|]); (split; [lra|]); intro; try discriminate; lra.
      * destruct (hasSpouse f && _); cbn [Heir.legalShare Heir.isHeir];
          (split; [lra|]); (split; [lra|]); intro; try discriminate; lra.
Qed.

Lemma legal_share_between_0_and_1_witness :
  0 < Heir.legalShare (resolveHeir familySpouseTwoSiblings sampleSibling).
Proof.
  apply (proj2 (proj2 (legal_share_between_0_and_1 familySpouseTwoSiblings sampleSibling))).
  reflexivity.
Defined.





(** ** Editing the family *)

Lemma updateMember_idStatus (id : string) (g : FamilyMember.t -> FamilyMember.t)
    (l : list FamilyMember.t) :
  (forall c, idStatus (g c) = idStatus c) ->
  map idStatus (updateMember id g l) = map idStatus l.
Proof.
  intro Hg. unfold updateMember. rewrite map_map. apply map_ext.
  intro c. destruct (String.eqb (FamilyMember.id c) id); [apply Hg | reflexivity].
Qed.

Lemma living_count_idStatus (l l' : list FamilyMember.t) :
  map idStatus l' = map idStatus l ->
  List.length (filter isAlive l') = List.length (filter isAlive l).
Proof.
  revert l'. induction l as [|c l IH]; intros [|c' l'] H; cbn in H; try discriminate H.
  - reflexivity.
  - injection H as _ Hs Hl. cbn [filter].
    assert (Ea : isAlive c' = isAlive c) by (unfold isAlive; rewrite Hs; reflexivity).
    rewrite Ea. specialize (IH l' Hl).
    destruct (isAlive c); cbn [List.length]; rewrite IH; reflexivity.
Qed.

(** The resolver reads a family through five counts and a candidate through
    id, relation and status. *)
Lemma resolveHeir_view_ext (f f' : Family.t) (p p' : FamilyMember.t) :
  List.length (livingChildren f') = List.length (livingChildren f) ->
  List.length (livingSiblings f') = List.length (livingSiblings f) ->
  hasSpouse f' = hasSpouse f -> hasFather f' = hasFather f ->
  hasMother f' = hasMother f ->
  FamilyMember.id p' = FamilyMember.id p ->
  FamilyMember.status p' = FamilyMember.status p ->
  FamilyMember.relation p' = FamilyMember.relation p ->
  heirView (resolveHeir f' p') = heirView (resolveHeir f p).
Proof.
  intros Hk Hs Hsp Hf Hm Hid Hst Hrel.
  unfold resolveHeir, parentCount, FamilyMember.relationIs, isAlive.
  rewrite Hk, Hs, Hsp, Hf, Hm, Hst, Hrel.
  unfold heirView, Heir.id, Heir.relation, Heir.status.
  repeat match goal with
         | |- context [if ?b then _ else _] => destruct b
         end;
    cbn [Heir.member Heir.isHeir Heir.share Heir.legalShare]; rewrite Hid, Hst, Hrel;
    reflexivity.
Qed.

Lemma heirs_view_group (f f' : Family.t) (r l : string) (ms ms' : list FamilyMember.t) :
  (forall p p', FamilyMember.id p' = FamilyMember.id p ->
                FamilyMember.status p' = FamilyMember.status p ->
                FamilyMember.relation p' = FamilyMember.relation p ->
                heirView (resolveHeir f' p') = heirView (resolveHeir f p)) ->
  map idStatus ms' = map idStatus ms ->
  map heirView (map (resolveHeir f') (map (fun c => FamilyMember.withRelation c r l) ms'))
  = map heirView (map (resolveHeir f) (map (fun c => FamilyMember.withRelation c r l) ms)).
Proof.
  intros Hext. revert ms'.
  induction ms as [|c ms IH]; intros [|c' ms'] H; cbn in H; try discriminate H.
  - reflexivity.
  - injection H as Hi Hs Hl. cbn [map]. f_equal; [|apply IH, Hl].
    apply Hext; cbn; auto.
Qed.

(** Families that agree on the three fixed slots and on the ids and statuses
    of children and siblings resolve to the same view. *)
Lemma heirs_view_ext (f f' : Family.t) :
  Family.spouse f' = Family.spouse f -> Family.father f' = Family.father f ->
  Family.mother f' = Family.mother f ->
  map idStatus (Family.children f') = map idStatus (Family.children f) ->
  map idStatus (Family.siblings f') = map idStatus (Family.siblings f) ->
  map heirView (heirs f') = map heirView (heirs f) /\
  autoDeductionAmount f' = autoDeductionAmount f.
Proof.
  intros Hsp Hf Hm Hc Hs.
  pose proof (living_count_idStatus _ _ Hc) as Hk.
  pose proof (living_count_idStatus _ _ Hs) as Hsb.
  assert (Hext : forall p p', FamilyMember.id p' = FamilyMember.id p ->
                   FamilyMember.status p' = FamilyMember.status p ->
                   FamilyMember.relation p' = FamilyMember.relation p ->
                   heirView (resolveHeir f' p') = heirView (resolveHeir f p)).
  { intros p p'. apply resolveHeir_view_ext; unfold livingChildren, livingSiblings,
      hasSpouse, hasFather, hasMother; congruence. }
  split.
  - unfold heirs, allCandidates. rewrite Hsp, Hf, Hm. rewrite !map_app.
    rewrite (heirs_view_group f f' "child" _ _ _ Hext Hc).
    rewrite (heirs_view_group f f' "sibling" _ _ _ Hext Hs).
    assert (Hone : forall (b : bool) x,
               map heirView (map (resolveHeir f') (if b then [x] else []))
               = map heirView (map (resolveHeir f) (if b then [x] else []))).
    { intros b x. destruct b; cbn [map]; [|reflexivity].
      f_equal. apply Hext; reflexivity. }
    f_equal; [apply Hone|]. f_equal; [apply Hone|]. f_equal; apply Hone.
  - unfold autoDeductionAmount. rewrite Hsp, Hf, Hm, Hk. reflexivity.
Qed.

(** X13: renaming a child or a sibling, changing their gender, ticking a
    child's "has spouse" or "has children" or changing the number of
    grandchildren never changes who is returned, who inherits, the share
    labels, the shares or the deductions. *)
Theorem edits_do_not_change_inheritance (e : FamilyEdit) (f : Family.t) :
  map heirView (heirs (applyEdit e f)) = map heirView (heirs f) /\
  autoDeductionAmount (applyEdit e f) = autoDeductionAmount f.
Proof.
  destruct e; cbn [applyEdit];
    apply heirs_view_ext; try reflexivity;
    cbn [updateChildName updateChildGender updateChildMeta updateChildCount
         updateSiblingName updateSiblingGender Family.withChildren Family.withSiblings
         Family.children Family.siblings];
    apply updateMember_idStatus; intro c; reflexivity.
Qed.

Lemma edits_do_not_change_inheritance_witness :
  map heirView (heirs (applyEdit (EditChildMeta "a7f2m1c" fieldHasChildren true)
                         familySpouseTwoChildren))
  = map heirView (heirs familySpouseTwoChildren).
Proof.
  exact (proj1 (edits_do_not_change_inheritance
                  (EditChildMeta "a7f2m1c" fieldHasChildren true)
                  familySpouseTwoChildren)).
Defined.

(** ** Adding and removing a child *)

Lemma filter_all (A : Type) (P : A -> bool) (l : list A) :
  (forall x, In x l -> P x = true) -> filter P l = l.
Proof.
  induction l as [|x l IH]; intro H; cbn [filter]; [reflexivity|].
  rewrite (H x (or_introl eq_refl)), IH; [reflexivity|].
  intros y Hy. apply H. right. exact Hy.
Qed.

Lemma releaseTo_pool_absent (id : string) (l : list Asset.t) :
  (forall a, In a l -> Asset.location a <> id) -> releaseTo_pool id l = l.
Proof.
  intro H. unfold releaseTo_pool. rewrite <- (map_id l) at 2.
  apply map_ext_in. intros a Ha.
  apply H, String.eqb_neq in Ha. rewrite Ha. reflexivity.
Qed.

(** X14: adding a child under a fresh id and removing it again restores the
    state, provided no asset is located at that id. *)
Theorem addChild_removeChild_round_trip (newId : string) (st : AppState) :
  (forall c, In c (Family.children (family st)) -> FamilyMember.id c <> newId) ->
  (forall a, In a (assets st) -> Asset.location a <> newId) ->
  removeChild newId
    (mkState (addChild newId (family st)) (assets st) (draggedAsset st))
  = st.
Proof.
  intros Hfresh Hloc. destruct st as [f l d]. destruct f as [sn sg sp fa mo cs ss].
  unfold removeChild, addChild.
  cbn [family assets draggedAsset Family.withChildren Family.children Family.self_name
       Family.self_gender Family.spouse Family.father Family.mother Family.siblings] in *.
  rewrite (releaseTo_pool_absent _ _ Hloc).
  rewrite filter_app. cbn [filter FamilyMember.id]. rewrite String.eqb_refl. cbn [negb].
  rewrite app_nil_r, filter_all; [reflexivity|].
  intros c Hc. apply negb_true_iff, String.eqb_neq, Hfresh, Hc.
Qed.

Lemma addChild_removeChild_round_trip_witness :
  removeChild "k3x9q2b"
    (mkState (addChild "k3x9q2b" familyParentsOneChild) ledger50M None)
  = mkState familyParentsOneChild ledger50M None.
Proof.
  apply (addChild_removeChild_round_trip "k3x9q2b"
           (mkState familyParentsOneChild ledger50M None)).
  - intros c [<- | []]. discriminate.
  - intros a [<- | [<- | []]]; discriminate.
Defined.

(** X15: after [removeChild id] no child carries that id, the children with
    another id are kept in order, no asset is located at that id (unless the
    id is "pool"), and the total estate is what it was; the same holds for
    [removeSibling] and the siblings. *)
Theorem removeChild_leaves_no_trace (id : string) (st : AppState) :
  (forall c, In c (Family.children (family (removeChild id st))) ->
             FamilyMember.id c <> id) /\
  (forall h, In h (heirs (family (removeChild id st))) ->
             Heir.relationIs h "child" = true -> Heir.id h <> id) /\
  (forall s, In s (Family.siblings (family (removeSibling id st))) ->
             FamilyMember.id s <> id) /\
  (forall a, In a (assets (removeChild id st)) -> Asset.location a = id -> id = "pool") /\
  totalEstate (removeChild id st) = totalEstate st /\
  totalEstate (removeSibling id st) = totalEstate st.
Proof.
  assert (Hc : forall c, In c (Family.children (family (removeChild id st))) ->
                         FamilyMember.id c <> id).
  { cbn. intros c Hc. apply filter_In in Hc. destruct Hc as [_ Hc].
    apply negb_true_iff, String.eqb_neq in Hc. exact Hc. }
  split; [exact Hc|]. split; [|split; [|split; [|split]]].
  - intros h Hh Hr. destruct (heirs_inv _ h Hh) as [p [Hp ->]].
    unfold Heir.relationIs, Heir.id in *. rewrite member_resolveHeir in *.
    destruct (allCandidates_inv _ p Hp)
      as [[-> _] | [[-> _] | [[-> _] | [[c [Hin ->]] | [s [_ ->]]]]]];
      try discriminate Hr.
    apply (Hc c Hin).
  - cbn. intros s Hs. apply filter_In in Hs. destruct Hs as [_ Hs].
    apply negb_true_iff, String.eqb_neq in Hs. exact Hs.
  - cbn [removeChild assets]. unfold releaseTo_pool. intros a Ha Hl.
    apply in_map_iff in Ha. destruct Ha as [b [<- _]].
    destruct (String.eqb_spec (Asset.location b) id) as [E|N]; cbn in Hl; congruence.
  - apply sumAmounts_identity. cbn [removeChild assets]. unfold releaseTo_pool.
    rewrite map_map. apply map_ext. intro a.
    destruct (String.eqb (Asset.location a) id); reflexivity.
  - apply sumAmounts_identity. cbn [removeSibling assets]. unfold releaseTo_pool.
    rewrite map_map. apply map_ext. intro a.
    destruct (String.eqb (Asset.location a) id); reflexivity.
Qed.

Lemma removeChild_leaves_no_trace_witness :
  forallb (fun a => negb (String.eqb (Asset.location a) "a7f2m1c"))
          (assets (removeChild "a7f2m1c" allocatedAroundChild)) = true /\
  totalEstate (removeChild "a7f2m1c" allocatedAroundChild)
  = totalEstate allocatedAroundChild.
Proof.
  split; [reflexivity|].
  exact (proj1 (proj2 (proj2 (proj2 (proj2
           (removeChild_leaves_no_trace "a7f2m1c" allocatedAroundChild)))))).
Defined.

(** ** Resetting and dropping *)

Lemma underReserved_not_started (st : AppState) (heir : Heir.t) :
  hasAllocationStarted (assets st) = false -> underReserved st heir = false.
Proof.
  intro H. unfold underReserved, isUnderReserved. rewrite H.
  rewrite andb_false_r. reflexivity.
Qed.

(** X16: a confirmed reset puts every asset in the pool and nothing else
    changes: the allocation counts as not started, no card is flagged
    under-reserved, and resetting again changes nothing; a declined reset
    leaves the state as it is. *)
Theorem reset_returns_everything_to_pool (st : AppState) :
  (forall a, In a (assets (handleResetAllocation true st)) -> Asset.location a = "pool") /\
  poolAssets (assets (handleResetAllocation true st))
  = assets (handleResetAllocation true st) /\
  map identityOf (assets (handleResetAllocation true st)) = map identityOf (assets st) /\
  hasAllocationStarted (assets (handleResetAllocation true st)) = false /\
  (forall heir, underReserved (handleResetAllocation true st) heir = false) /\
  handleResetAllocation true (handleResetAllocation true st)
  = handleResetAllocation true st /\
  handleResetAllocation false st = st.
Proof.
  assert (Hall : forall a, In a (assets (handleResetAllocation true st)) ->
                           Asset.location a = "pool").
  { cbn. intros a Ha. apply in_map_iff in Ha. destruct Ha as [b [<- _]]. reflexivity. }
  assert (Hns : hasAllocationStarted (assets (handleResetAllocation true st)) = false).
  { destruct (hasAllocationStarted (assets (handleResetAllocation true st))) eqn:E;
      [|reflexivity].
    apply hasAllocationStarted_iff in E. destruct E as [a [Ha Hn]].
    exfalso. exact (Hn (Hall a Ha)). }
  split; [exact Hall|]. split; [|split; [|split; [|split; [|split]]]].
  - unfold poolAssets. apply filter_all. intros a Ha.
    rewrite (Hall a Ha). reflexivity.
  - cbn. rewrite map_map. apply map_ext. intro a. reflexivity.
  - exact Hns.
  - intro heir. apply underReserved_not_started, Hns.
  - cbn. f_equal. rewrite map_map. apply map_ext. intro a. reflexivity.
  - reflexivity.
Qed.

Lemma relocate_relocate (d : Asset.t) (t1 t2 : string) (l : list Asset.t) :
  relocate d t2 (relocate d t1 l) = relocate d t2 l.
Proof.
  unfold relocate. rewrite map_map. apply map_ext. intro a.
  destruct (String.eqb (Asset.id a) (Asset.id d)) eqn:E; cbn [Asset.withLocation Asset.id].
  - rewrite E. reflexivity.
  - rewrite E. reflexivity.
Qed.

Lemma relocate_absent (d : Asset.t) (target : string) (l : list Asset.t) :
  (forall a, In a l -> Asset.id a <> Asset.id d) -> relocate d target l = l.
Proof.
  intro H. unfold relocate. rewrite <- (map_id l) at 2. apply map_ext_in.
  intros a Ha. apply H, String.eqb_neq in Ha. rewrite Ha. reflexivity.
Qed.

(** X17: a drop needs a drag.  With nothing dragged a drop does nothing,
    whatever the target; a drop that is not rejected ends the drag, so a
    second drop right after it does nothing either; after a rejected drop the
    asset is still being dragged. *)
Theorem drop_needs_a_drag (t1 t2 : string) (st : AppState) :
  (draggedAsset st = None -> handleDrop t1 st = st) /\
  (dropRejected (family st) t1 = false ->
   draggedAsset (handleDrop t1 st) = None /\
   handleDrop t2 (handleDrop t1 st) = handleDrop t1 st) /\
  (dropRejected (family st) t1 = true -> handleDrop t1 st = st).
Proof.
  unfold handleDrop. split; [|split].
  - intros ->. reflexivity.
  - intros ->. destruct (draggedAsset st) eqn:E; cbn [draggedAsset]; rewrite ?E; auto.
  - intros ->. destruct (draggedAsset st); reflexivity.
Qed.

Lemma drop_needs_a_drag_witness :
  handleDrop "mother" (handleDrop "father" draggingCash) = handleDrop "father" draggingCash /\
  handleDrop "father" (mkState familyParentsOneChild ledger50M None)
  = mkState familyParentsOneChild ledger50M None.
Proof.
  destruct (drop_needs_a_drag "father" "mother" draggingCash) as [_ [H _]].
  destruct (drop_needs_a_drag "father" "mother"
              (mkState familyParentsOneChild ledger50M None)) as [H0 _].
  split; [apply H; reflexivity | apply H0; reflexivity].
Defined.

(** X18: a drop on "pool" is always accepted; moving the same asset twice
    gives what the second move alone gives; and dragging an asset whose id is
    no longer in the ledger leaves every asset where it is. *)
Theorem moves_are_last_wins (d : Asset.t) (t1 t2 : string) (st : AppState) :
  handleDrop "pool" (handleDragStart d st)
  = mkState (family st) (relocate d "pool" (assets st)) None /\
  (dropRejected (family st) t1 = false -> dropRejected (family st) t2 = false ->
   handleDrop t2 (handleDragStart d (handleDrop t1 (handleDragStart d st)))
   = handleDrop t2 (handleDragStart d st)) /\
  ((forall a, In a (assets st) -> Asset.id a <> Asset.id d) ->
   assets (handleDrop t1 (handleDragStart d st)) = assets st).
Proof.
  split; [|split].
  - unfold handleDrop, handleDragStart, dropRejected. cbn [draggedAsset family assets].
    destruct (targetHeir (family st) "pool"); reflexivity.
  - intros H1 H2. unfold handleDrop, handleDragStart.
    cbn [draggedAsset family assets]. rewrite H1. cbn [draggedAsset family assets].
    rewrite H2, relocate_relocate. reflexivity.
  - intro H. unfold handleDrop, handleDragStart. cbn [draggedAsset family assets].
    destruct (dropRejected (family st) t1); cbn [assets]; [reflexivity|].
    apply relocate_absent, H.
Qed.

Lemma moves_are_last_wins_witness :
  handleDrop "mother" (handleDragStart sampleCash
    (handleDrop "father" (handleDragStart sampleCash
       (mkState familyParentsOneChild ledger50M None))))
  = handleDrop "mother" (handleDragStart sampleCash
      (mkState familyParentsOneChild ledger50M None)).
Proof.
  apply (proj1 (proj2 (moves_are_last_wins sampleCash "father" "mother"
                         (mkState familyParentsOneChild ledger50M None))));
    reflexivity.
Defined.

(** ** Adding, deleting and editing assets *)

Lemma sortedBefore_iff (a b : Asset.t) :
  sortedBefore a b <->
  (indexOf (Asset.type a) typeOrder < indexOf (Asset.type b) typeOrder)%Z \/
  (indexOf (Asset.type a) typeOrder = indexOf (Asset.type b) typeOrder /\
   Asset.amount b <= Asset.amount a).
Proof.
  unfold sortedBefore, compareAssets.
  destruct (Asset.type a), (Asset.type b); cbn; split; intro H;
    try (right; split; [reflexivity | lra]);
    try (left; lia);
    try (destruct H as [H | [H _]]; [lia | discriminate H]);
    try (destruct H as [H | [_ H]]; [lia | lra]);
    try (unfold Qle; cbn; lia);
    try (exfalso; unfold Qle in H; cbn in H; lia).
Qed.

Lemma sortedBefore_trans (a b c : Asset.t) :
  sortedBefore a b -> sortedBefore b c -> sortedBefore a c.
Proof.
  rewrite !sortedBefore_iff. intros [H1 | [H1 H1']] [H2 | [H2 H2']].
  - left; lia.
  - left; lia.
  - left; lia.
  - right. split; [lia | lra].
Qed.

Lemma sortedBefore_total (a b : Asset.t) : ~ sortedBefore a b -> sortedBefore b a.
Proof.
  rewrite !sortedBefore_iff. intro H.
  destruct (Z.lt_trichotomy (indexOf (Asset.type a) typeOrder)
                            (indexOf (Asset.type b) typeOrder)) as [L | [E | G]].
  - exfalso. apply H. left. exact L.
  - right. split; [lia|].
    destruct (Qlt_le_dec (Asset.amount b) (Asset.amount a)) as [Hl | Hl]; [|exact Hl].
    exfalso. apply H. right. split; [exact E | lra].
  - left. lia.
Qed.

Lemma insertSorted_perm (x : Asset.t) (l : list Asset.t) :
  Permutation (x :: l) (insertSorted compareAssets x l).
Proof.
  induction l as [|y l IH]; cbn [insertSorted].
  - apply Permutation_refl.
  - destruct (Qle_bool (compareAssets x y) 0).
    + apply Permutation_refl.
    + eapply perm_trans; [apply perm_swap|]. apply perm_skip, IH.
Qed.

Lemma sortStable_perm (l : list Asset.t) : Permutation l (sortStable compareAssets l).
Proof.
  induction l as [|x l IH]; cbn [sortStable fold_right].
  - apply perm_nil.
  - eapply perm_trans; [apply perm_skip, IH|]. apply insertSorted_perm.
Qed.

Lemma insertSorted_sorted (x : Asset.t) (l : list Asset.t) :
  StronglySorted sortedBefore l ->
  StronglySorted sortedBefore (insertSorted compareAssets x l).
Proof.
  induction l as [|y l IH]; intro Hs; cbn [insertSorted].
  - constructor; constructor.
  - inversion Hs as [|y' l' Hl Hy]; subst.
    destruct (Qle_bool (compareAssets x y) 0) eqn:E.
    + apply Qle_bool_iff in E. constructor; [exact Hs|].
      constructor; [exact E|].
      eapply Forall_impl; [|exact Hy]. intros z Hz.
      exact (sortedBefore_trans _ _ _ E Hz).
    + constructor; [apply IH, Hl|].
      assert (Hyx : sortedBefore y x).
      { apply sortedBefore_total. intro H. apply Qle_bool_iff in H. congruence. }
      apply Forall_forall. intros z Hz.
      apply (Permutation_in _ (Permutation_sym (insertSorted_perm x l))) in Hz.
      destruct Hz as [<- | Hz]; [exact Hyx|].
      rewrite Forall_forall in Hy. apply Hy, Hz.
Qed.

Lemma sortStable_sorted (l : list Asset.t) :
  StronglySorted sortedBefore (sortStable compareAssets l).
Proof.
  induction l as [|x l IH]; cbn [sortStable fold_right].
  - constructor.
  - apply insertSorted_sorted, IH.
Qed.

(** A list that is already in order is left as it is. *)
Lemma sortStable_id (l : list Asset.t) :
  StronglySorted sortedBefore l -> sortStable compareAssets l = l.
Proof.
  induction l as [|x l IH]; intro Hs; cbn [sortStable fold_right]; [reflexivity|].
  inversion Hs as [|x' l' Hl Hx]; subst.
  fold (sortStable compareAssets l). rewrite (IH Hl).
  destruct l as [|y l]; [reflexivity|]. cbn [insertSorted].
  inversion Hx as [|y' l' Hxy _]; subst.
  apply Qle_bool_iff in Hxy. rewrite Hxy. reflexivity.
Qed.

Lemma sumAmounts_cons (a : Asset.t) (l : list Asset.t) :
  sumAmounts (a :: l) == Asset.amount a + sumAmounts l.
Proof.
  unfold sumAmounts. cbn [fold_left]. rewrite fold_left_Qplus_shift. lra.
Qed.

Lemma sumAmounts_perm (l l' : list Asset.t) :
  Permutation l l' -> sumAmounts l == sumAmounts l'.
Proof.
  induction 1 as [| x l l' _ IH | x y l | l l' l'' _ IH1 _ IH2].
  - reflexivity.
  - rewrite !sumAmounts_cons, IH. reflexivity.
  - rewrite !sumAmounts_cons. lra.
  - rewrite IH1. exact IH2.
Qed.

Lemma sumAmounts_app (l l' : list Asset.t) :
  sumAmounts (l ++ l') == sumAmounts l + sumAmounts l'.
Proof.
  induction l as [|a l IH]; cbn [app].
  - unfold sumAmounts at 2. cbn. lra.
  - rewrite !sumAmounts_cons, IH. lra.
Qed.

(** X19: [handleConfirmAdd] rejects an amount that is not a number or not
    positive and leaves the state as it is; otherwise the ledger becomes a
    rearrangement of the old assets and the new one, ordered by type and then
    by decreasing amount, the new asset sits in the pool, and the estate
    grows by the amount times 10,000. *)
Theorem add_asset_validates_and_sorts (newId : string) (pendingType : AssetType)
    (trimmedName : string) (st : AppState) :
  handleConfirmAdd newId pendingType None trimmedName st = st /\
  (forall v, (v <= 0)%Z ->
     handleConfirmAdd newId pendingType (Some v) trimmedName st = st) /\
  (forall v, (0 < v)%Z ->
     Permutation (assets st ++ [newAsset newId pendingType v trimmedName])
       (assets (handleConfirmAdd newId pendingType (Some v) trimmedName st)) /\
     StronglySorted sortedBefore
       (assets (handleConfirmAdd newId pendingType (Some v) trimmedName st)) /\
     totalEstate (handleConfirmAdd newId pendingType (Some v) trimmedName st)
     == totalEstate st + inject_Z v * 10000 /\
     Asset.location (newAsset newId pendingType v trimmedName) = "pool" /\
     family (handleConfirmAdd newId pendingType (Some v) trimmedName st) = family st).
Proof.
  split; [reflexivity|]. split.
  - intros v Hv. unfold handleConfirmAdd.
    apply Z.leb_le in Hv. rewrite Hv. reflexivity.
  - intros v Hv. unfold handleConfirmAdd.
    assert (E : (v <=? 0)%Z = false) by (apply Z.leb_gt; exact Hv).
    rewrite E. cbn [assets family].
    split; [apply sortStable_perm|]. split; [apply sortStable_sorted|].
    split; [|split; reflexivity].
    unfold totalEstate. cbn [assets].
    rewrite <- (sumAmounts_perm _ _ (sortStable_perm _)), sumAmounts_app.
    rewrite sumAmounts_cons. change (sumAmounts []) with 0.
    cbn [newAsset Asset.amount]. lra.
Qed.

Lemma add_asset_validates_and_sorts_witness :
  map Asset.id
    (assets (handleConfirmAdd "st0ck01" stock (Some 500%Z) "fund"
               (mkState familyParentsOneChild ledger50M None)))
  = ["c4sh001"; "st0ck01"; "h0use01"] /\
  totalEstate (handleConfirmAdd "st0ck01" stock (Some 500%Z) "fund"
                 (mkState familyParentsOneChild ledger50M None))
  == 55000000.
Proof.
  split; [reflexivity|].
  destruct (add_asset_validates_and_sorts "st0ck01" stock "fund"
              (mkState familyParentsOneChild ledger50M None)) as [_ [_ H]].
  destruct (H 500%Z ltac:(lia)) as [_ [_ [Ht _]]].
  rewrite Ht. reflexivity.
Defined.

Lemma find_id_NoDup (assetId : string) (l : list Asset.t) (a : Asset.t) :
  NoDup (map Asset.id l) -> In a l -> Asset.id a = assetId ->
  find (fun x => String.eqb (Asset.id x) assetId) l = Some a.
Proof.
  intros Hnd Hin Hid. induction l as [|x l IH]; [contradiction|].
  cbn [map] in Hnd. inversion Hnd as [|i m Hni Hnd']; subst.
  cbn [find]. destruct Hin as [-> | Hin].
  - rewrite String.eqb_refl. reflexivity.
  - destruct (String.eqb_spec (Asset.id x) (Asset.id a)) as [E|N].
    + exfalso. apply Hni. rewrite E. apply in_map, Hin.
    + apply IH; assumption.
Qed.

Lemma filter_other_ids (assetId : string) (l : list Asset.t) (a : Asset.t) :
  NoDup (map Asset.id l) -> In a l -> Asset.id a = assetId ->
  Permutation l (a :: filter (fun x => negb (String.eqb (Asset.id x) assetId)) l).
Proof.
  intros Hnd Hin Hid. induction l as [|x l IH]; [contradiction|].
  cbn [map] in Hnd. inversion Hnd as [|i m Hni Hnd']; subst.
  cbn [filter]. destruct Hin as [-> | Hin].
  - rewrite String.eqb_refl. cbn [negb]. apply perm_skip.
    rewrite filter_all; [apply Permutation_refl|].
    intros y Hy. apply negb_true_iff, String.eqb_neq. intro E.
    apply Hni. rewrite <- E. apply in_map, Hy.
  - destruct (String.eqb_spec (Asset.id x) (Asset.id a)) as [E|N]; cbn [negb].
    + exfalso. apply Hni. rewrite E. apply in_map, Hin.
    + eapply perm_trans; [apply perm_skip, (IH Hnd' Hin)|]. apply perm_swap.
Qed.

(** X20: [handleDeleteAsset] does nothing for an unknown id, for a declined
    confirmation, and for an asset that is not in the pool.  With distinct
    asset ids, a confirmed deletion of a pool asset removes that asset and no
    other, lowers the estate by its amount, and never removes an asset that
    is allocated outside the pool. *)
Theorem delete_only_from_pool (confirmed : bool) (assetId : string) (st : AppState) :
  ((forall a, In a (assets st) -> Asset.id a <> assetId) ->
   handleDeleteAsset confirmed assetId st = st) /\
  handleDeleteAsset false assetId st = st /\
  (NoDup (map Asset.id (assets st)) ->
   forall a, In a (assets st) -> Asset.id a = assetId ->
     (Asset.location a <> "pool" -> handleDeleteAsset confirmed assetId st = st) /\
     (Asset.location a = "pool" ->
      Permutation (assets st) (a :: assets (handleDeleteAsset true assetId st)) /\
      totalEstate (handleDeleteAsset true assetId st) == totalEstate st - Asset.amount a /\
      forall b, In b (assets st) -> Asset.location b <> "pool" ->
                In b (assets (handleDeleteAsset true assetId st)))).
Proof.
  unfold handleDeleteAsset. split; [|split].
  - intro H.
    destruct (find (fun a => String.eqb (Asset.id a) assetId) (assets st)) eqn:E;
      [|reflexivity].
    apply find_some in E. destruct E as [Hin He]. apply String.eqb_eq in He.
    exfalso. exact (H _ Hin He).
  - destruct (find _ (assets st)); [|reflexivity].
    destruct (negb _); reflexivity.
  - intros Hnd a Hin Hid. rewrite (find_id_NoDup _ _ _ Hnd Hin Hid). split.
    + intro Hl. apply String.eqb_neq in Hl. rewrite Hl. reflexivity.
    + intro Hl. apply String.eqb_eq in Hl. rewrite Hl. cbn [negb assets].
      pose proof (filter_other_ids _ _ _ Hnd Hin Hid) as Hp.
      apply String.eqb_eq in Hl.
      split; [exact Hp|]. split.
      * unfold totalEstate. cbn [assets].
        pose proof (sumAmounts_perm _ _ Hp) as Hsum.
        rewrite sumAmounts_cons in Hsum. rewrite Hsum. lra.
      * intros b Hb Hbl. apply filter_In. split; [exact Hb|].
        apply negb_true_iff, String.eqb_neq. intro E.
        assert (b = a).
        { pose proof (find_id_NoDup _ _ _ Hnd Hb E) as Fb.
          rewrite (find_id_NoDup _ _ _ Hnd Hin Hid) in Fb. congruence. }
        subst b. exact (Hbl Hl).
Qed.

Lemma delete_only_from_pool_witness :
  handleDeleteAsset true "c4sh001" allocatedAroundChild = allocatedAroundChild /\
  map Asset.id
    (assets (handleDeleteAsset true "c4sh001" (mkState familyParentsOneChild ledger50M None)))
  = ["h0use01"].
Proof.
  destruct (delete_only_from_pool true "c4sh001" allocatedAroundChild) as [_ [_ H]].
  split; [|reflexivity].
  refine (proj1 (H _ (Asset.withLocation sampleCash "a7f2m1c") _ _) _).
  - cbn. repeat constructor; cbn; intuition discriminate.
  - left; reflexivity.
  - reflexivity.
  - discriminate.
Defined.

(** X21: [handleAssetAmountChange] stores [max(0, newAmount)] in the assets
    with the given id and changes nothing else -- no id, type, location or
    name, and no asset with another id; what the pool's input passes on is
    never stored as a negative amount, and an unknown id changes nothing. *)
Theorem amount_change_clamps (assetId : string) (newAmount : number) (st : AppState) :
  Forall2 (fun a a' =>
             Asset.id a' = Asset.id a /\ Asset.type a' = Asset.type a /\
             Asset.location a' = Asset.location a /\ Asset.name a' = Asset.name a /\
             (Asset.id a = assetId ->
              Asset.amount a' = Qmax 0 newAmount /\ 0 <= Asset.amount a') /\
             (Asset.id a <> assetId -> a' = a))
          (assets st) (assets (handleAssetAmountChange assetId newAmount st)) /\
  ((forall a, In a (assets st) -> Asset.id a <> assetId) ->
   handleAssetAmountChange assetId newAmount st = st) /\
  (forall parsed, 0 <= Qmax 0 (amountInput parsed) /\
                  (amountInput parsed <= 0 -> Qmax 0 (amountInput parsed) == 0)).
Proof.
  split; [|split].
  - cbn [handleAssetAmountChange assets].
    induction (assets st) as [|a l IH]; cbn [map]; constructor; [|exact IH].
    destruct (String.eqb_spec (Asset.id a) assetId) as [E|N];
      cbn [withAmount Asset.id Asset.type Asset.location Asset.name Asset.amount];
      repeat split; try congruence; try (intros; apply Q.le_max_l).
  - intro H. unfold handleAssetAmountChange. destruct st as [f l d].
    cbn [family assets draggedAsset] in *. f_equal.
    rewrite <- (map_id l) at 2. apply map_ext_in. intros a Ha.
    apply H, String.eqb_neq in Ha. rewrite Ha. reflexivity.
  - intro parsed. split; [apply Q.le_max_l|].
    intro H. apply Q.max_l, H.
Qed.

Lemma amount_change_clamps_witness :
  map Asset.amount
    (assets (handleAssetAmountChange "c4sh001" (amountInput (Some (-3)%Z))
               (mkState familyParentsOneChild ledger50M None)))
  = [0; 20000000] /\
  handleAssetAmountChange "n0such1" 5 (mkState familyParentsOneChild ledger50M None)
  = mkState familyParentsOneChild ledger50M None.
Proof.
  split; [reflexivity|].
  apply (proj1 (proj2 (amount_change_clamps "n0such1" 5
                         (mkState familyParentsOneChild ledger50M None)))).
  intros a [<- | [<- | []]]; discriminate.
Defined.

(** ** What every session keeps *)

Lemma updateMember_status (id : string) (g : FamilyMember.t -> FamilyMember.t)
    (l : list FamilyMember.t) (c : FamilyMember.t) :
  (forall x, FamilyMember.status (g x) = FamilyMember.status x) ->
  In c (updateMember id g l) ->
  exists c0, In c0 l /\ FamilyMember.status c = FamilyMember.status c0.
Proof.
  intros Hg Hc. unfold updateMember in Hc. apply in_map_iff in Hc.
  destruct Hc as [c0 [<- Hin]]. exists c0. split; [exact Hin|].
  destruct (String.eqb (FamilyMember.id c0) id); [apply Hg | reflexivity].
Qed.

Lemma identity_amounts (P : number -> Prop) (l l' : list Asset.t) :
  map identityOf l' = map identityOf l ->
  (forall a, In a l -> P (Asset.amount a)) ->
  forall a', In a' l' -> P (Asset.amount a').
Proof.
  intros Hid H a' Ha'.
  assert (Hin : In (identityOf a') (map identityOf l))
    by (rewrite <- Hid; apply in_map, Ha').
  apply in_map_iff in Hin. destruct Hin as [a [Ea Ha]].
  assert (Asset.amount a' = Asset.amount a) as ->
    by (unfold identityOf in Ea; congruence).
  apply H, Ha.
Qed.

Lemma wholeUnits_clamped (parsed : option Z) : wholeUnits (Qmax 0 (amountInput parsed)).
Proof.
  unfold amountInput.
  set (v := match parsed with Some v => v | None => 0%Z end).
  destruct (Z_le_gt_dec 0 v) as [Hv | Hv].
  - exists v. split; [exact Hv|]. apply Q.max_r.
    assert (0 <= inject_Z v) by (change 0 with (inject_Z 0); rewrite <- Zle_Qle; lia).
    nra.
  - exists 0%Z. split; [lia|]. rewrite Q.max_l; [reflexivity|].
    assert (inject_Z v <= 0) by (change 0 with (inject_Z 0); rewrite <- Zle_Qle; lia).
    nra.
Qed.

Lemma dispatch_invariant (st : AppState) (a : Action) :
  sessionInvariant st -> sessionInvariant (dispatch st a).
Proof.
  intros [Ha [Hc [Hs Hsp]]].
  destruct a as [b | role status | newId | id | newId | id | e | e
                 | newId ty v name | confirmed assetId | assetId parsed];
    cbn [dispatch].
  - repeat split; try assumption. cbn. destruct b; discriminate.
  - destruct role; repeat split; assumption.
  - repeat split; try assumption. cbn. intros c Hin.
    apply in_app_or in Hin. destruct Hin as [Hin | [<- | []]]; [apply Hc, Hin | reflexivity].
  - repeat split; try assumption.
    + cbn [removeChild assets]. unfold releaseTo_pool. intros x Hx.
      apply in_map_iff in Hx. destruct Hx as [y [<- Hy]].
      destruct (String.eqb (Asset.location y) id); exact (Ha y Hy).
    + cbn. intros c Hin. apply filter_In in Hin. apply Hc, Hin.
  - repeat split; try assumption. cbn. intros c Hin.
    apply in_app_or in Hin. destruct Hin as [Hin | [<- | []]]; [apply Hs, Hin | reflexivity].
  - repeat split; try assumption.
    + cbn [removeSibling assets]. unfold releaseTo_pool. intros x Hx.
      apply in_map_iff in Hx. destruct Hx as [y [<- Hy]].
      destruct (String.eqb (Asset.location y) id); exact (Ha y Hy).
    + cbn. intros c Hin. apply filter_In in Hin. apply Hs, Hin.
  - destruct e; repeat split; try assumption; cbn; intros c Hin;
      apply updateMember_status in Hin; try (intro; reflexivity);
      destruct Hin as [c0 [Hin ->]]; auto.
  - split; [|destruct e; cbn [step]; unfold handleDrop, handleResetAllocation;
             repeat match goal with
                    | |- context [match ?x with _ => _ end] => destruct x
                    end; repeat split; assumption].
    apply (identity_amounts wholeUnits _ _ (step_identity st e)), Ha.
  - unfold handleConfirmAdd. destruct v as [v|]; [|repeat split; assumption].
    destruct (Z.leb_spec v 0) as [Hv | Hv]; [repeat split; assumption|].
    repeat split; try assumption. cbn [assets]. intros x Hx.
    apply (Permutation_in _ (Permutation_sym (sortStable_perm _))) in Hx.
    apply in_app_or in Hx. destruct Hx as [Hx | [<- | []]]; [apply Ha, Hx|].
    exists v. split; [lia | reflexivity].
  - unfold handleDeleteAsset.
    destruct (find _ (assets st)); [|repeat split; assumption].
    destruct (negb _); [repeat split; assumption|].
    destruct confirmed; repeat split; try assumption.
    cbn [assets]. intros x Hx. apply filter_In in Hx. apply Ha, Hx.
  - repeat split; try assumption. cbn [handleAssetAmountChange assets].
    intros x Hx. apply in_map_iff in Hx. destruct Hx as [y [<- Hy]].
    destruct (String.eqb (Asset.id y) assetId); [|apply Ha, Hy].
    cbn [withAmount Asset.amount]. apply wholeUnits_clamped.
Qed.

Lemma session_invariant (actions : list Action) : sessionInvariant (session actions).
Proof.
  unfold session.
  assert (H0 : sessionInvariant initialState).
  { repeat split; cbn; try contradiction; discriminate. }
  revert H0. generalize initialState.
  induction actions as [|a actions IH]; intros st Hst; cbn [fold_left].
  - exact Hst.
  - apply IH, dispatch_invariant, Hst.
Qed.

(** X22: whatever handlers run from the initial state, every amount is a
    whole number of units of 10,000 and none is negative, so the estate is
    never negative; every child and sibling is alive and the spouse is
    absent or alive, so every child the resolver returns is a heir. *)
Theorem session_keeps_amounts_and_statuses (actions : list Action) :
  (forall a, In a (assets (session actions)) ->
     exists k : Z, (0 <= k)%Z /\ Asset.amount a == inject_Z k * 10000) /\
  0 <= totalEstate (session actions) /\
  (forall c, In c (Family.children (family (session actions))
                   ++ Family.siblings (family (session actions))) ->
     FamilyMember.status c = ALIVE) /\
  FamilyMember.status (Family.spouse (family (session actions))) <> DECEASED /\
  (forall h, In h (heirs (family (session actions))) ->
     Heir.relationIs h "child" = true -> Heir.isHeir h = true).
Proof.
  destruct (session_invariant actions) as [Ha [Hc [Hs Hsp]]].
  split; [exact Ha|]. split; [|split; [|split; [exact Hsp|]]].
  - apply sumAmounts_nonneg. intros a Hin. destruct (Ha a Hin) as [k [Hk ->]].
    assert (0 <= inject_Z k) by (change 0 with (inject_Z 0); rewrite <- Zle_Qle; lia).
    nra.
  - intros c Hin. apply in_app_or in Hin. destruct Hin as [Hin | Hin]; auto.
  - intros h Hh Hr. destruct (heirs_inv _ h Hh) as [p [Hp ->]].
    unfold Heir.relationIs in Hr. rewrite member_resolveHeir in Hr.
    rewrite (resolveHeir_isHeir _ p Hp), Hr.
    destruct (allCandidates_inv _ p Hp)
      as [[-> _] | [[-> _] | [[-> _] | [[c [Hin ->]] | [s [_ ->]]]]]];
      try discriminate Hr.
    unfold isAlive. cbn [FamilyMember.status FamilyMember.withRelation].
    rewrite (Hc c Hin). reflexivity.
Qed.

Lemma session_keeps_amounts_and_statuses_witness :
  0 <= totalEstate
         (session [DoUpdateSpouse true; DoAddChild "a7f2m1c";
                   DoConfirmAdd "c4sh001" cash (Some 3000%Z) "";
                   DoEvent (DragStart sampleCash); DoEvent (Drop "a7f2m1c");
                   DoAmountInput "c4sh001" (Some (-2)%Z)]).
Proof.
  exact (proj1 (proj2 (session_keeps_amounts_and_statuses
           [DoUpdateSpouse true; DoAddChild "a7f2m1c";
            DoConfirmAdd "c4sh001" cash (Some 3000%Z) "";
            DoEvent (DragStart sampleCash); DoEvent (Drop "a7f2m1c");
            DoAmountInput "c4sh001" (Some (-2)%Z)]))).
Defined.

(** ** Share labels *)

Lemma gcdFuel_abs (fuel : nat) (a b : Z) :
  (Z.abs_nat b < fuel)%nat -> Z.abs (gcdFuel fuel a b) = Z.gcd a b.
Proof.
  revert a b. induction fuel as [|fuel IH]; intros a b Hf; [lia|].
  cbn [gcdFuel]. destruct (Z.eqb_spec b 0) as [-> | Hb].
  - symmetry. apply Z.gcd_0_r.
  - rewrite IH.
    + rewrite Z.gcd_comm, Z.gcd_rem by exact Hb. apply Z.gcd_comm.
    + pose proof (Z.rem_bound_abs a b Hb). lia.
Qed.

Lemma gcdFuel_nonneg (fuel : nat) (a b : Z) :
  (0 <= a)%Z -> (0 <= b)%Z -> (0 <= gcdFuel fuel a b)%Z.
Proof.
  revert a b. induction fuel as [|fuel IH]; intros a b Ha Hb; cbn [gcdFuel]; [exact Ha|].
  destruct (Z.eqb_spec b 0) as [-> | Hn]; [exact Ha|].
  apply IH; [exact Hb|]. apply Z.rem_nonneg; [exact Hn | exact Ha].
Qed.

Lemma gcdFuel_enough (fuel : nat) (a b : Z) :
  (Z.abs_nat b < fuel)%nat -> gcdFuel fuel a b = gcdFuel (S fuel) a b.
Proof.
  revert a b. induction fuel as [|fuel IH]; intros a b Hf; [lia|].
  cbn [gcdFuel]. destruct (Z.eqb_spec b 0) as [-> | Hb]; [reflexivity|].
  rewrite IH; [reflexivity|].
  pose proof (Z.rem_bound_abs a b Hb). lia.
Qed.

(** X23: [gcd] returns, up to sign, the greatest common divisor: the result
    divides both arguments and every common divisor divides it; for
    non-negative arguments it is the greatest common divisor itself.  The
    recursion ends within [|b| + 1] calls: more fuel never changes the
    result. *)
Theorem gcd_is_greatest_common_divisor (a b : Z) :
  Z.abs (gcd a b) = Z.gcd a b /\
  (gcd a b | a)%Z /\ (gcd a b | b)%Z /\
  (forall c, (c | a)%Z -> (c | b)%Z -> (c | gcd a b)%Z) /\
  ((0 <= a)%Z -> (0 <= b)%Z -> gcd a b = Z.gcd a b) /\
  (forall fuel, (Z.abs_nat b < fuel)%nat -> gcdFuel fuel a b = gcd a b).
Proof.
  assert (Habs : Z.abs (gcd a b) = Z.gcd a b) by (apply gcdFuel_abs; lia).
  split; [exact Habs|]. split; [|split; [|split; [|split]]].
  - apply Z.divide_abs_l. rewrite Habs. apply Z.gcd_divide_l.
  - apply Z.divide_abs_l. rewrite Habs. apply Z.gcd_divide_r.
  - intros c Ha Hb. apply Z.divide_abs_r. rewrite Habs. apply Z.gcd_greatest; assumption.
  - intros Ha Hb. rewrite <- Habs. symmetry. apply Z.abs_eq.
    apply gcdFuel_nonneg; assumption.
  - intros fuel Hf. unfold gcd.
    induction fuel as [|fuel IH]; [lia|].
    destruct (Nat.eq_dec fuel (Z.abs_nat b)) as [-> | Hne]; [reflexivity|].
    rewrite <- gcdFuel_enough by lia. apply IH. lia.
Qed.

Lemma gcd_is_greatest_common_divisor_witness :
  gcd 84 (-36) = 12%Z /\ gcd 84 36 = Z.gcd 84 36.
Proof.
  split; [reflexivity|].
  apply (proj1 (proj2 (proj2 (proj2 (proj2 (gcd_is_greatest_common_divisor 84 36))))));
    lia.
Defined.

Lemma gcd_nonneg_args (a b : Z) :
  (0 <= a)%Z -> (0 < b)%Z -> gcd a b = Z.gcd a b /\ (0 < Z.gcd a b)%Z.
Proof.
  intros Ha Hb.
  assert (Habs : Z.abs (gcd a b) = Z.gcd a b) by (apply gcdFuel_abs; lia).
  split.
  - rewrite <- Habs. symmetry. apply Z.abs_eq. apply gcdFuel_nonneg; lia.
  - pose proof (Z.gcd_nonneg a b).
    destruct (Z.eq_dec (Z.gcd a b) 0) as [E|N]; [|lia].
    apply Z.gcd_eq_0 in E. lia.
Qed.

Lemma round_nonneg (x : number) : 0 <= x -> (0 <= round x)%Z.
Proof.
  intro H. unfold round.
  assert (H0 : (Qfloor 0 <= Qfloor (x + 1 / 2))%Z).
  { apply Qfloor_resp_le. setoid_replace (1 / 2) with (1 # 2) by reflexivity. lra. }
  exact H0.
Qed.

Lemma inject_Z_pos (z : Z) : (0 < z)%Z -> 0 < inject_Z z.
Proof. intro H. change 0 with (inject_Z 0). rewrite <- Zlt_Qlt. exact H. Qed.

(** What one turn of the loop returns. *)
Lemma ratioAt_sound (share : number) (dz n d : Z) :
  0 < share -> (1 <= dz)%Z -> ratioAt share dz = Some (n, d) ->
  (1 <= d <= dz)%Z /\ (0 < n)%Z /\ Z.gcd n d = 1%Z /\
  Qabs (share - inject_Z n / inject_Z d) < tolerance /\
  (exists g, (0 < g)%Z /\ round (share * inject_Z dz) = (n * g)%Z /\ dz = (d * g)%Z).
Proof.
  intros Hs Hd. unfold ratioAt.
  set (k := round (share * inject_Z dz)).
  assert (Hk0 : (0 <= k)%Z).
  { apply round_nonneg. pose proof (inject_Z_pos dz ltac:(lia)). nra. }
  destruct (Z.eqb_spec k 0) as [E | Hk]; [discriminate|].
  destruct (Qlt_bool _ tolerance) eqn:Et; [|discriminate].
  apply Qlt_bool_iff in Et.
  destruct (gcd_nonneg_args k dz Hk0 ltac:(lia)) as [Eg Hg].
  rewrite (Z.abs_eq k Hk0), Eg.
  assert (Hgcd : Z.gcd (k / Z.gcd k dz) (dz / Z.gcd k dz) = 1%Z)
    by (apply Z.gcd_div_gcd; [lia | reflexivity]).
  destruct (Z.gcd_divide_l k dz) as [n' Hn'].
  destruct (Z.gcd_divide_r k dz) as [d' Hd'].
  remember (Z.gcd k dz) as g eqn:Eg'.
  assert (En : (k / g = n')%Z) by (rewrite Hn' at 1; apply Z.div_mul; lia).
  assert (Ed : (dz / g = d')%Z) by (rewrite Hd' at 1; apply Z.div_mul; lia).
  rewrite En, Ed in *.
  intro H. injection H as <- <-.
  assert (Hd'pos : (0 < d')%Z) by nia.
  split; [nia|]. split; [nia|]. split; [exact Hgcd|]. split.
  - assert (Eq : inject_Z n' / inject_Z d' == inject_Z k / inject_Z dz).
    { rewrite Hn', Hd', !inject_Z_mult.
      pose proof (inject_Z_pos g Hg). pose proof (inject_Z_pos d' Hd'pos).
      field. split; lra. }
    rewrite Eq. exact Et.
  - exists g. repeat split; [exact Hg | exact Hn' | exact Hd'].
Qed.

Lemma firstRatio_sound (share : number) (ds : list nat) (n d : Z) :
  0 < share -> (forall x, In x ds -> (1 <= x <= 120)%nat) ->
  firstRatio share ds = Some (n, d) ->
  (1 <= d <= 120)%Z /\ (0 < n)%Z /\ Z.gcd n d = 1%Z /\
  Qabs (share - inject_Z n / inject_Z d) < tolerance.
Proof.
  intros Hs. induction ds as [|x ds IH]; intros Hds H; cbn [firstRatio] in H;
    [discriminate|].
  destruct (ratioAt share (Z.of_nat x)) as [[n' d']|] eqn:E.
  - injection H as -> ->.
    assert (Hx : (1 <= x <= 120)%nat) by (apply Hds; left; reflexivity).
    destruct (ratioAt_sound share (Z.of_nat x) n d Hs ltac:(lia) E)
      as [Hd [Hn [Hg [Ht _]]]].
    repeat split; try assumption; lia.
  - apply IH; [|exact H]. intros y Hy. apply Hds. right. exact Hy.
Qed.

(** X24: [formatShareRatio] prints "0" for a share that is not positive;
    when it prints a fraction, the fraction is in lowest terms, its
    denominator is between 1 and 120, its numerator is positive and it is
    within 1e-8 of the share. *)
Theorem share_label_is_a_close_reduced_fraction (share : number) :
  (share <= 0 -> formatShareRatio share = "0") /\
  (0 < share -> forall n d, firstRatio share (seq 1 120) = Some (n, d) ->
     formatShareRatio share = (string_of_Z n ++ " / " ++ string_of_Z d)%string /\
     (1 <= d <= 120)%Z /\ (0 < n)%Z /\ Z.gcd n d = 1%Z /\
     Qabs (share - inject_Z n / inject_Z d) < 1e-8).
Proof.
  split.
  - intro H. unfold formatShareRatio. apply Qle_bool_iff in H. rewrite H. reflexivity.
  - intros Hs n d H. split.
    + unfold formatShareRatio. apply Qle_bool_false_iff in Hs. rewrite Hs, H. reflexivity.
    + apply (firstRatio_sound share (seq 1 120) n d Hs); [|exact H].
      intros x Hx. apply in_seq in Hx. lia.
Qed.

Lemma share_label_is_a_close_reduced_fraction_witness :
  formatShareRatio (5 # 20) = "1 / 4" /\ formatShareRatio (- (1 # 2)) = "0".
Proof.
  destruct (share_label_is_a_close_reduced_fraction (5 # 20)) as [_ H].
  destruct (share_label_is_a_close_reduced_fraction (- (1 # 2))) as [H0 _].
  split.
  - apply (H ltac:(reflexivity) 1%Z 4%Z). reflexivity.
  - apply H0. unfold Qle; simpl; lia.
Defined.

Lemma round_integer (z : Z) : round (inject_Z z) = z.
Proof.
  unfold round.
  pose proof (Qfloor_le (inject_Z z + 1 / 2)) as Hl.
  pose proof (Qlt_floor (inject_Z z + 1 / 2)) as Hu.
  remember (Qfloor (inject_Z z + 1 / 2)) as F eqn:EF. clear EF.
  assert (Hh : 1 / 2 == 1 # 2) by reflexivity.
  rewrite Hh in Hl, Hu.
  assert (H1 : inject_Z F < inject_Z (z + 1))
    by (rewrite inject_Z_plus; change (inject_Z 1) with 1; lra).
  assert (H2 : inject_Z z < inject_Z (F + 1)) by lra.
  rewrite <- Zlt_Qlt in H1, H2. lia.
Qed.

Lemma ratioAt_exact (share : number) (p q : Z) :
  (0 < p)%Z -> (0 < q)%Z -> Z.gcd p q = 1%Z ->
  share == inject_Z p / inject_Z q ->
  ratioAt share q = Some (p, q).
Proof.
  intros Hp Hq Hg Hs. unfold ratioAt.
  pose proof (inject_Z_pos q Hq) as Hq'.
  assert (Ek : round (share * inject_Z q) = p).
  { rewrite <- (round_integer p). unfold round. apply Qfloor_comp.
    rewrite Hs. field. lra. }
  rewrite Ek.
  destruct (Z.eqb_spec p 0) as [E|_]; [lia|].
  assert (Et : Qlt_bool (Qabs (share - inject_Z p / inject_Z q)) tolerance = true).
  { apply Qlt_bool_iff.
    assert (E0 : share - inject_Z p / inject_Z q == 0) by (rewrite Hs; field; lra).
    rewrite E0. reflexivity. }
  rewrite Et.
  destruct (gcd_nonneg_args (Z.abs p) q ltac:(lia) Hq) as [Eg _].
  rewrite Eg, Z.gcd_abs_l, Hg, !Z.div_1_r. reflexivity.
Qed.

Lemma ratioAt_none_below (share : number) (p q d : Z) :
  (0 < p)%Z -> (0 < q <= 120)%Z -> Z.gcd p q = 1%Z ->
  share == inject_Z p / inject_Z q ->
  (1 <= d < q)%Z -> ratioAt share d = None.
Proof.
  intros Hp Hq Hg Hs Hd. unfold ratioAt.
  set (k := round (share * inject_Z d)).
  destruct (Z.eqb_spec k 0) as [_|Hk]; [reflexivity|].
  assert (Et : Qlt_bool (Qabs (share - inject_Z k / inject_Z d)) tolerance = false);
    [|rewrite Et; reflexivity].
  unfold Qlt_bool. apply negb_false_iff, Qle_bool_iff.
  pose proof (inject_Z_pos q ltac:(lia)) as Hq'.
  pose proof (inject_Z_pos d ltac:(lia)) as Hd'.
  assert (Hm : (p * d - k * q <> 0)%Z).
  { intro E. assert (Hdiv : (q | p * d)%Z) by (exists k; lia).
    apply Z.gauss in Hdiv; [|rewrite Z.gcd_comm; exact Hg].
    apply Z.divide_pos_le in Hdiv; lia. }
  assert (Ex : share - inject_Z k / inject_Z d
               == inject_Z (p * d - k * q) / inject_Z (q * d)).
  { rewrite Hs. unfold Zminus. rewrite inject_Z_plus, inject_Z_opp, !inject_Z_mult.
    field. split; lra. }
  assert (Hqd : 0 < inject_Z (q * d) /\ inject_Z (q * d) <= 14400).
  { split; [apply inject_Z_pos; nia|].
    change 14400 with (inject_Z 14400). rewrite <- Zle_Qle. nia. }
  destruct Hqd as [Hqd0 Hqd1].
  assert (Hi : 0 < / inject_Z (q * d)) by (apply Qinv_lt_0_compat; exact Hqd0).
  assert (Hone : inject_Z (q * d) * / inject_Z (q * d) == 1)
    by (apply Qmult_inv_r; lra).
  assert (Etol : tolerance == 1 # 100000000) by reflexivity.
  assert (Hinv : 1 <= 14400 * / inject_Z (q * d)).
  { assert (0 <= (14400 - inject_Z (q * d)) * / inject_Z (q * d))
      by (apply Qmult_le_0_compat; lra).
    lra. }
  destruct (Z_lt_le_dec 0 (p * d - k * q)) as [Hpos | Hneg].
  - assert (H1 : 1 <= inject_Z (p * d - k * q))
      by (change 1 with (inject_Z 1); rewrite <- Zle_Qle; lia).
    eapply Qle_trans; [|apply Qle_Qabs]. rewrite Ex.
    assert (0 <= (inject_Z (p * d - k * q) - 1) * / inject_Z (q * d))
      by (apply Qmult_le_0_compat; lra).
    rewrite Etol. unfold Qdiv. lra.
  - assert (H1 : inject_Z (p * d - k * q) <= -1)
      by (change (-1) with (inject_Z (-1)); rewrite <- Zle_Qle; lia).
    rewrite <- Qabs_opp. eapply Qle_trans; [|apply Qle_Qabs]. rewrite Ex.
    assert (0 <= (- inject_Z (p * d - k * q) - 1) * / inject_Z (q * d))
      by (apply Qmult_le_0_compat; lra).
    rewrite Etol. unfold Qdiv. lra.
Qed.

Lemma firstRatio_skip (share : number) (l1 l2 : list nat) :
  (forall d, In d l1 -> ratioAt share (Z.of_nat d) = None) ->
  firstRatio share (l1 ++ l2) = firstRatio share l2.
Proof.
  induction l1 as [|x l1 IH]; intro H; cbn [app firstRatio]; [reflexivity|].
  rewrite (H x (or_introl eq_refl)). apply IH. intros d Hd. apply H. right. exact Hd.
Qed.

(** X25: a share that is exactly a fraction [p / q] in lowest terms, with
    [p >= 1] and [1 <= q <= 120], is printed as "p / q": no smaller
    denominator comes within the tolerance. *)
Theorem exact_fraction_is_printed_as_is (share : number) (p q : Z) :
  (1 <= p)%Z -> (1 <= q <= 120)%Z -> Z.gcd p q = 1%Z ->
  share == inject_Z p / inject_Z q ->
  formatShareRatio share = (string_of_Z p ++ " / " ++ string_of_Z q)%string.
Proof.
  intros Hp Hq Hg Hs.
  pose proof (inject_Z_pos q ltac:(lia)) as Hq'.
  pose proof (inject_Z_pos p ltac:(lia)) as Hp'.
  assert (Hpos : 0 < share).
  { rewrite Hs. unfold Qdiv. assert (0 < / inject_Z q) by (apply Qinv_lt_0_compat; lra).
    nra. }
  unfold formatShareRatio. apply Qle_bool_false_iff in Hpos. rewrite Hpos.
  assert (Hseq : seq 1 120
                 = seq 1 (Z.to_nat q - 1) ++ Z.to_nat q :: seq (S (Z.to_nat q)) (120 - Z.to_nat q)).
  { replace 120%nat with ((Z.to_nat q - 1) + S (120 - Z.to_nat q))%nat at 1 by lia.
    rewrite seq_app. cbn [seq]. replace (1 + (Z.to_nat q - 1))%nat with (Z.to_nat q) by lia.
    reflexivity. }
  rewrite Hseq, firstRatio_skip.
  - cbn [firstRatio]. rewrite Z2Nat.id by lia.
    rewrite (ratioAt_exact share p q) by (try assumption; lia). reflexivity.
  - intros d Hd. apply in_seq in Hd.
    apply (ratioAt_none_below share p q); try assumption; lia.
Qed.

Lemma exact_fraction_is_printed_as_is_witness :
  formatShareRatio (Heir.legalShare (resolveHeir familySpouseTwoChildren sampleChild) / 2)
  = "1 / 6".
Proof.
  apply (exact_fraction_is_printed_as_is _ 1 6); try lia; reflexivity.
Defined.

(** ** Drop zones *)

Lemma endsWith_app (p suffix : string) : endsWith (p ++ suffix) suffix = true.
Proof. apply endsWith_correct. exists p. reflexivity. Qed.

(** X26: no drop zone on the screen is dead: the pool, every card -- of a
    heir or not -- and every spouse or grandchild slot a card shows is a
    target [handleDrop] accepts, so a dragged asset dropped there is stored
    at that target. *)
Theorem every_drop_zone_is_accepted (st : AppState) (dragged : Asset.t) (target : string) :
  In target (dropTargets (family st)) ->
  dropRejected (family st) target = false /\
  (draggedAsset st = Some dragged ->
   handleDrop target st
   = mkState (family st) (relocate dragged target (assets st)) None).
Proof.
  intro Hin.
  assert (Hacc : dropRejected (family st) target = false).
  { unfold dropRejected. destruct (targetHeir (family st) target) eqn:Et; [reflexivity|].
    destruct Hin as [<- | Hin]; [reflexivity|].
    apply in_flat_map in Hin. destruct Hin as [h [Hh Hin]].
    destruct Hin as [<- | Hin].
    - destruct (targetHeir_found _ _ Hh) as [h' E]. congruence.
    - assert (Hext : isExtendedZone target = true); [|rewrite Hext; apply andb_false_r].
      unfold isExtendedZone. apply orb_true_iff.
      destruct (_ && _); [|contradiction].
      apply in_app_or in Hin. destruct Hin as [Hin | Hin].
      + destruct (truthy _); [|contradiction]. destruct Hin as [<- | []].
        left. apply endsWith_app.
      + destruct (truthy (FamilyMember.hasChildren _)); [|contradiction].
        apply in_map_iff in Hin. destruct Hin as [i [<- _]].
        right. apply includes_correct. eexists. eexists. reflexivity. }
  split; [exact Hacc|].
  intro Hd. unfold handleDrop. rewrite Hd, Hacc. reflexivity.
Qed.

Lemma every_drop_zone_is_accepted_witness :
  dropTargets (applyEdit (EditChildCount "a7f2m1c" 2)
                 (applyEdit (EditChildMeta "a7f2m1c" fieldHasChildren true)
                    familyParentsOneChild))
  = ["pool"; "father"; "mother"; "a7f2m1c"; "a7f2m1c_child_0"; "a7f2m1c_child_1"] /\
  dropRejected familyParentsOneChild "mother" = false.
Proof.
  split; [reflexivity|].
  apply (every_drop_zone_is_accepted (mkState familyParentsOneChild ledger50M None)
           sampleCash "mother").
  right; right; left; reflexivity.
Defined.

Lemma reset_returns_everything_to_pool_witness :
  underReserved (handleResetAllocation true spouseHoldsCash)
    (resolveHeir familySpouseTwoChildren sampleChild) = false /\
  map Asset.location (assets (handleResetAllocation true allocatedAroundChild))
  = ["pool"; "pool"; "pool"; "pool"].
Proof.
  split; [|reflexivity].
  apply (proj1 (proj2 (proj2 (proj2 (proj2
           (reset_returns_everything_to_pool spouseHoldsCash)))))).
Defined.
